(** * Student records service: a shallow embedding of [main.py]

    The Flask views of [main.py] are embedded as pure functions over an
    explicit database state (the rows of the [student] table) and, for the
    upload view, an explicit file-system state.  [request.get_json()] is the
    argument [data] of the views; its result is a Python value. *)

From Stdlib Require Import ZArith List String Ascii Bool Lia.
From Stdlib Require Import PrimFloat.
From Stdlib Require DecimalString FloatOps SpecFloat.
Import ListNotations.

Local Open Scope string_scope.
Local Open Scope Z_scope.
Local Set Warnings "-register-all".

(** ** Python values and exceptions *)

(** The values [json.loads] produces.  A [dict] is an association list read
    by first match; strings are sequences of code points below 256. *)
Inductive value : Type :=
| VNone
| VBool (b : bool)
| VInt (z : Z)
| VFloat (f : float)
| VStr (s : string)
| VList (l : list value)
| VDict (d : list (string * value)).

(** The exception classes the [except] clauses of the views tell apart:
    [ValueError] on one side, every other [Exception] on the other. *)
Inductive exn : Type :=
| ValueError
| TypeError
| KeyError
| OverflowError
| SQLAlchemyError.

Inductive outcome (A : Type) : Type :=
| Ret (a : A)
| Raise (e : exn).
Arguments Ret {A} a.
Arguments Raise {A} e.

Definition bind {A B : Type} (m : outcome A) (k : A -> outcome B) : outcome B :=
  match m with
  | Ret a => k a
  | Raise e => Raise e
  end.

Declare Scope py_scope.
Delimit Scope py_scope with py.
Notation "x <- m ;; k" := (bind m (fun x => k))
  (at level 61, m at next level, right associativity) : py_scope.
Local Open Scope py_scope.

(** [bool(v)]: what [not data] negates. *)
Definition truthy (v : value) : bool :=
  match v with
  | VNone => false
  | VBool b => b
  | VInt z => negb (z =? 0)
  | VFloat f => negb (PrimFloat.eqb f 0%float)
  | VStr s => negb (s =? "")%string
  | VList l => match l with [] => false | _ => true end
  | VDict d => match d with [] => false | _ => true end
  end.

Fixpoint lookup (k : string) (d : list (string * value)) : option value :=
  match d with
  | [] => None
  | (k', v) :: d' => if (k =? k')%string then Some v else lookup k d'
  end.

Definition has_key (k : string) (d : list (string * value)) : bool :=
  match lookup k d with Some _ => true | None => false end.

(** [p in s] on two strings: [p] occurs in [s] as a substring. *)
Fixpoint is_infix (p s : string) : bool :=
  String.prefix p s ||
  match s with
  | EmptyString => false
  | String _ s' => is_infix p s'
  end.

Definition is_str (k : string) (v : value) : bool :=
  match v with
  | VStr s => (k =? s)%string
  | _ => false
  end.

(** [k in data] for a string [k]: key membership in a dict, element
    membership in a list, substring in a string, [TypeError] otherwise. *)
Definition contains (k : string) (data : value) : outcome bool :=
  match data with
  | VDict d => Ret (has_key k d)
  | VList l => Ret (existsb (is_str k) l)
  | VStr s => Ret (is_infix k s)
  | _ => Raise TypeError
  end.

(** [data[k]] for a string [k]. *)
Definition getitem (data : value) (k : string) : outcome value :=
  match data with
  | VDict d => match lookup k d with
               | Some v => Ret v
               | None => Raise KeyError
               end
  | _ => Raise TypeError
  end.

(** ** Dates: [datetime.strptime(s, '%Y-%m-%d').date()] and [isoformat] *)

Record date : Type := mkDate { year : Z; month : Z; day : Z }.

Definition is_digit (c : ascii) : bool :=
  let n := Z.of_nat (nat_of_ascii c) in (48 <=? n) && (n <=? 57).

Definition digit_val (c : ascii) : Z := Z.of_nat (nat_of_ascii c) - 48.

Definition in_range (lo hi : Z) (c : ascii) : bool :=
  is_digit c && (lo <=? digit_val c) && (digit_val c <=? hi).

(** [(?P<Y>\d\d\d\d)] *)
Definition match_Y (s : string) : option (Z * string) :=
  match s with
  | String a (String b (String c (String d rest))) =>
      if is_digit a && is_digit b && is_digit c && is_digit d
      then Some (1000 * digit_val a + 100 * digit_val b
                 + 10 * digit_val c + digit_val d, rest)
      else None
  | _ => None
  end.

(** One alternative made of a first and a second character class. *)
Definition two_chars (p q : ascii -> bool) (v : ascii -> ascii -> Z)
    (s : string) : option (Z * string) :=
  match s with
  | String a (String b rest) => if p a && q b then Some (v a b, rest) else None
  | _ => None
  end.

Definition one_char (p : ascii -> bool) (s : string) : option (Z * string) :=
  match s with
  | String a rest => if p a then Some (digit_val a, rest) else None
  | _ => None
  end.

Definition two_digits (a b : ascii) : Z := 10 * digit_val a + digit_val b.
Definition is_char (c : ascii) (a : ascii) : bool := Ascii.eqb a c.

(** [(?P<m>1[0-2]|0[1-9]|[1-9])], the alternatives in the order tried. *)
Definition alts_m : list (string -> option (Z * string)) :=
  [ two_chars (is_char "1") (in_range 0 2) two_digits;
    two_chars (is_char "0") (in_range 1 9) two_digits;
    one_char (in_range 1 9) ].

(** [(?P<d>3[0-1]|[1-2]\d|0[1-9]|[1-9]| [1-9])] *)
Definition alts_d : list (string -> option (Z * string)) :=
  [ two_chars (is_char "3") (in_range 0 1) two_digits;
    two_chars (in_range 1 2) is_digit two_digits;
    two_chars (is_char "0") (in_range 1 9) two_digits;
    one_char (in_range 1 9);
    two_chars (is_char " ") (in_range 1 9) (fun _ b => digit_val b) ].

(** A literal ['-']. *)
Definition match_dash (s : string) : option string :=
  match s with
  | String c rest => if is_char "-" c then Some rest else None
  | _ => None
  end.

(** Ordered alternation with backtracking: the first alternative after
    which the continuation [k] matches. *)
Fixpoint alternation {A : Type} (alts : list (string -> option (Z * string)))
    (k : Z -> string -> option A) (s : string) : option A :=
  match alts with
  | [] => None
  | alt :: alts' =>
      match (match alt s with Some (v, rest) => k v rest | None => None end) with
      | Some r => Some r
      | None => alternation alts' k s
      end
  end.

(** The tail [(?P<m>...)-(?P<d>...)] of the pattern: month, day and the
    unmatched remainder. *)
Definition match_md (s : string) : option (Z * Z * string) :=
  alternation alts_m
    (fun m s3 =>
       match match_dash s3 with
       | Some s4 => alternation alts_d (fun d s5 => Some (m, d, s5)) s4
       | None => None
       end) s.

(** [format_regex.match(data_string)] for the format ['%Y-%m-%d']: the
    three groups and the unmatched remainder of the string. *)
Definition regex_match (s : string) : option (Z * Z * Z * string) :=
  match match_Y s with
  | Some (y, s1) =>
      match match_dash s1 with
      | Some s2 =>
          match match_md s2 with
          | Some (m, d, rest) => Some (y, m, d, rest)
          | None => None
          end
      | None => None
      end
  | None => None
  end.

Definition is_leap (y : Z) : bool :=
  (y mod 4 =? 0) && (negb (y mod 100 =? 0) || (y mod 400 =? 0)).

Definition days_in_month (y m : Z) : Z :=
  if m =? 2 then (if is_leap y then 29 else 28)
  else if (m =? 4) || (m =? 6) || (m =? 9) || (m =? 11) then 30
  else 31.

(** The range check of the [date] constructor ([MINYEAR = 1],
    [MAXYEAR = 9999]). *)
Definition valid_date (d : date) : bool :=
  (1 <=? year d) && (year d <=? 9999) &&
  (1 <=? month d) && (month d <=? 12) &&
  (1 <=? day d) && (day d <=? days_in_month (year d) (month d)).

(** [datetime.strptime(s, '%Y-%m-%d').date()] on a string: [ValueError]
    when the pattern does not match, when unconverted data remains, or when
    the triple is not a calendar date. *)
Definition strptime_str (s : string) : outcome date :=
  match regex_match s with
  | None => Raise ValueError
  | Some (y, m, d, rest) =>
      if negb (rest =? "")%string then Raise ValueError
      else let r := mkDate y m d in
           if valid_date r then Ret r else Raise ValueError
  end.

(** On any Python value: a non-string argument is a [TypeError]. *)
Definition strptime (v : value) : outcome date :=
  match v with
  | VStr s => strptime_str s
  | _ => Raise TypeError
  end.

Definition digit_char (n : Z) : ascii := ascii_of_nat (Z.to_nat (48 + n mod 10)).

Definition pad2 (n : Z) : string :=
  String (digit_char (n / 10)) (String (digit_char n) "").

Definition pad4 (n : Z) : string :=
  String (digit_char (n / 1000)) (String (digit_char (n / 100)) (pad2 n)).

(** [date.isoformat()]: ["%04d-%02d-%02d"]. *)
Definition isoformat (d : date) : string :=
  pad4 (year d) ++ "-" ++ pad2 (month d) ++ "-" ++ pad2 (day d).

(** ** The [student] table *)

(** What SQLite holds in an INTEGER column and accepts as an integer
    parameter: a signed 64-bit integer. *)
Definition fits_int64 (z : Z) : bool :=
  (- 2 ^ 63 <=? z) && (z <? 2 ^ 63).

(** A row of the table: [student_id] INTEGER PRIMARY KEY, a signed 64-bit
    integer, two VARCHAR(50) columns, a DATE column and a FLOAT column, all
    NOT NULL. *)
Record Student : Type := Build_Student {
  student_id : Z;
  first_name : string;
  last_name : string;
  dob : date;
  amount_due : float;
  student_id_fits : fits_int64 student_id = true
}.

(** The integer [i] as a rowid: itself when it is one. *)
Definition as_rowid (i : Z) : Z := if fits_int64 i then i else 0.

Definition as_rowid_fits (i : Z) : fits_int64 (as_rowid i) = true :=
  (if fits_int64 i as b
      return fits_int64 i = b -> fits_int64 (if b then i else 0) = true
   then fun H => H
   else fun _ => eq_refl) eq_refl.

(** The row with the rowid [i] and the four fields. *)
Definition mkStudent (i : Z) (fn ln : string) (d : date) (am : float) : Student :=
  Build_Student (as_rowid i) fn ln d am (as_rowid_fits i).

(** The committed rows, in rowid order. *)
Definition database : Type := list Student.

(** [Student.to_dict] *)
Definition to_dict (s : Student) : value :=
  VDict [ ("student_id", VInt (student_id s));
          ("first_name", VStr (first_name s));
          ("last_name", VStr (last_name s));
          ("dob", VStr (isoformat (dob s)));
          ("amount_due", VFloat (amount_due s)) ].

(** The SELECT behind [Student.query.get]: the row under the primary key
    [id], if there is one. *)
Fixpoint query_get (db : database) (id : Z) : option Student :=
  match db with
  | [] => None
  | s :: db' => if student_id s =? id then Some s else query_get db' id
  end.

(** [Student.query.get(student_id)]: the id goes to SQLite as a parameter
    of the SELECT, and an integer outside the signed 64-bit range cannot be
    bound: the call raises [OverflowError]. *)
Definition Student_query_get (db : database) (id : Z) : outcome (option Student) :=
  if fits_int64 id then Ret (query_get db id) else Raise OverflowError.

(** [Student.query.all()] *)
Definition query_all (db : database) : list Student := db.

(** The attributes of a [Student] object the session has yet to flush:
    whatever Python value the view assigned, [None] for an attribute it
    did not assign. *)
Record pending : Type := mkPending {
  p_first_name : option value;
  p_last_name : option value;
  p_dob : option date;
  p_amount_due : option value
}.

(** The rowid SQLite gives an inserted row: 1 in an empty table, else one
    more than the largest in use. *)
Definition next_id (db : database) : Z :=
  match map student_id db with
  | [] => 1
  | i :: l => 1 + fold_right Z.max i l
  end.

Definition decimal (z : Z) : string :=
  DecimalString.NilZero.string_of_int (Z.to_int z).

(** [float(z)] on a Python int: the nearest double, [OverflowError] when
    there is none. *)
Definition float_of_int (z : Z) : outcome float :=
  let f := FloatOps.SF2Prim
             (SpecFloat.binary_normalize FloatOps.prec FloatOps.emax z 0 false) in
  if PrimFloat.is_infinity f then Raise OverflowError else Ret f.

(** The two conversions between text and doubles that the store relies on
    and that are left to the libraries: Python's [float(s)] on a string
    ([None] when it raises) and SQLite's rendering of a REAL as TEXT. *)
Record engine : Type := mkEngine {
  float_of_text : string -> option float;
  text_of_float : float -> string
}.

Section Store.

Variable E : engine.

(** Binding a Python value to a VARCHAR NOT NULL column: the value goes to
    SQLite as it is and the column's TEXT affinity turns numbers into text;
    NULL violates the constraint; lists and dicts cannot be bound.  The
    strings of the model (code points below 256) all encode to UTF-8, so
    each of them binds. *)
Definition bind_text (v : value) : outcome string :=
  match v with
  | VNone => Raise SQLAlchemyError
  | VStr s => Ret s
  | VBool b => Ret (if b then "1" else "0")
  | VInt z => if fits_int64 z then Ret (decimal z) else Raise OverflowError
  | VFloat f => if PrimFloat.is_nan f then Raise SQLAlchemyError
                else Ret (text_of_float E f)
  | VList _ | VDict _ => Raise SQLAlchemyError
  end.

(** The double a FLOAT column gives back for the double stored: the same
    one, but for the negative zero, which SQLite keeps as the integer 0 and
    reads back as [0.0]. *)
Definition is_neg_zero (f : float) : bool :=
  match PrimFloat.classify f with
  | FloatClass.NZero => true
  | _ => false
  end.

Definition stored_real (f : float) : float :=
  if is_neg_zero f then 0%float else f.

(** Binding to the FLOAT NOT NULL column: [None] stays NULL and violates
    the constraint, anything else goes through [float(value)], whose
    failure the engine reports as its own error; a NaN is stored as NULL;
    the views read the row back after the commit, so what they see is the
    double as stored. *)
Definition bind_real (v : value) : outcome float :=
  f <- match v with
       | VNone => Raise SQLAlchemyError
       | VFloat f => Ret f
       | VInt z => match float_of_int z with
                   | Ret f => Ret f
                   | Raise _ => Raise SQLAlchemyError
                   end
       | VBool b => Ret (if b then 1%float else 0%float)
       | VStr s => match float_of_text E s with
                   | Some f => Ret f
                   | None => Raise SQLAlchemyError
                   end
       | VList _ | VDict _ => Raise SQLAlchemyError
       end ;;
  if PrimFloat.is_nan f then Raise SQLAlchemyError else Ret (stored_real f).

Definition flush_text (old : string) (p : option value) : outcome string :=
  match p with
  | None => Ret old
  | Some v => bind_text v
  end.

Definition flush_real (old : float) (p : option value) : outcome float :=
  match p with
  | None => Ret old
  | Some v => bind_real v
  end.

Definition flush_date (old : date) (p : option date) : date :=
  match p with
  | None => old
  | Some d => d
  end.

(** The row an UPDATE leaves for [s] once the assigned attributes are
    flushed. *)
Definition flush_row (s : Student) (p : pending) : outcome Student :=
  fn <- flush_text (first_name s) (p_first_name p) ;;
  ln <- flush_text (last_name s) (p_last_name p) ;;
  am <- flush_real (amount_due s) (p_amount_due p) ;;
  Ret (Build_Student (student_id s) fn ln (flush_date (dob s) (p_dob p)) am
         (student_id_fits s)).

Definition replace_row (s' : Student) (db : database) : database :=
  map (fun r => if student_id r =? student_id s' then s' else r) db.

(** [db.session.commit()] after attribute assignments on the loaded row
    [s]: the new table and the row as reloaded. *)
Definition commit_update (db : database) (s : Student) (p : pending)
  : outcome (database * Student) :=
  s' <- flush_row s p ;;
  Ret (replace_row s' db, s').

(** [db.session.add(new_student); db.session.commit()].  A table whose
    largest rowid is the largest 64-bit integer has no next rowid; SQLite
    then looks for an unused one at random and gives up when it finds none:
    the model takes the insertion to fail there. *)
Definition commit_insert (db : database) (fn ln : value) (d : date) (am : value)
  : outcome (database * Student) :=
  fn' <- bind_text fn ;;
  ln' <- bind_text ln ;;
  am' <- bind_real am ;;
  if fits_int64 (next_id db) then
    let s := mkStudent (next_id db) fn' ln' d am' in
    Ret ((db ++ [s])%list, s)
  else Raise SQLAlchemyError.

(** [db.session.delete(student); db.session.commit()] *)
Definition commit_delete (db : database) (s : Student) : database :=
  filter (fun r => negb (student_id r =? student_id s)) db.

End Store.

(** ** Responses *)

(** The JSON bodies the views build, by shape; [MessageExn prefix e] is
    [{'message': f'{prefix}{str(e)}'}], and [Unhandled e] the answer of the
    framework to an exception that leaves the view. *)
Inductive body : Type :=
| Message (message : string)
| MessageStudent (message : string) (student : value)
| StudentBody (student : value)
| StudentsBody (students : list value)
| MessageExn (prefix : string) (e : exn)
| ErrorBody (error : string)
| Unhandled (e : exn).

Record response : Type := mkResponse { resp_body : body; status : Z }.

(** [jsonify(...)] alone answers 200. *)
Definition jsonify (b : body) : response := mkResponse b 200.

(** The error kinds of the service, as the responses that carry them. *)
Definition MissingField : response :=
  mkResponse (Message "Invalid input. Please provide all required fields.") 400.
Definition InvalidDateFormat : response :=
  mkResponse (Message "Invalid date format. Use YYYY-MM-DD.") 400.
Definition NotFound : response :=
  mkResponse (Message "Student not found") 404.
Definition NoInput : response :=
  mkResponse (Message "No data provided for update") 400.

(** ** The views on [/students] *)

(** [a or b], the right operand evaluated only when the left one is false. *)
Definition por (a : outcome bool) (b : outcome bool) : outcome bool :=
  x <- a ;; if x then Ret true else b.

Definition not_in (k : string) (data : value) : outcome bool :=
  b <- contains k data ;; Ret (negb b).

(** The test of [create_student]:
    [not data or 'first_name' not in data or ... or 'amount_due' not in data] *)
Definition invalid_input (data : value) : outcome bool :=
  por (Ret (negb (truthy data)))
   (por (not_in "first_name" data)
    (por (not_in "last_name" data)
     (por (not_in "dob" data)
          (not_in "amount_due" data)))).

(** The guarded assignment [if k in data: student.k = f(data[k])]. *)
Definition assign_if_present {A : Type} (k : string) (data : value)
    (f : value -> outcome A) : outcome (option A) :=
  b <- contains k data ;;
  if b then (v <- getitem data k ;; a <- f v ;; Ret (Some a)) else Ret None.

Section Views.

Variable E : engine.

(** The [try] block of [create_student]. *)
Definition create_body (db : database) (data : value)
  : outcome (database * Student) :=
  v <- getitem data "dob" ;;
  d <- strptime v ;;
  fn <- getitem data "first_name" ;;
  ln <- getitem data "last_name" ;;
  am <- getitem data "amount_due" ;;
  commit_insert E db fn ln d am.

(** [POST /students] *)
Definition create_student (db : database) (data : value) : database * response :=
  match invalid_input data with
  | Raise e => (db, mkResponse (Unhandled e) 500)
  | Ret true => (db, MissingField)
  | Ret false =>
      match create_body db data with
      | Ret (db', new_student) =>
          (db', mkResponse (MessageStudent "Student created!" (to_dict new_student)) 201)
      | Raise ValueError => (db, InvalidDateFormat)
      | Raise e => (db, mkResponse (MessageExn "Error creating student: " e) 500)
      end
  end.

(** [GET /students] *)
Definition get_students (db : database) : response :=
  jsonify (StudentsBody (map to_dict (query_all db))).

(** [GET /students/<int:student_id>]; nothing in the view catches what the
    lookup raises. *)
Definition get_student (db : database) (id : Z) : response :=
  match Student_query_get db id with
  | Raise e => mkResponse (Unhandled e) 500
  | Ret (Some student) => jsonify (StudentBody (to_dict student))
  | Ret None => NotFound
  end.

(** The [try] block of [update_student], the assignments in source order. *)
Definition update_body (db : database) (student : Student) (data : value)
  : outcome (database * Student) :=
  fn <- assign_if_present "first_name" data Ret ;;
  ln <- assign_if_present "last_name" data Ret ;;
  d <- assign_if_present "dob" data strptime ;;
  am <- assign_if_present "amount_due" data Ret ;;
  commit_update E db student (mkPending fn ln d am).

(** [PUT /students/<int:student_id>].  The lookup stands before the [try]
    block: an exception it raises leaves the view.  The assignments of the
    [try] block
    reach the table only through [db.session.commit()]: when an exception
    leaves the block before or during the commit, the session is dropped
    with the request and the table keeps its rows. *)
Definition update_student (db : database) (id : Z) (data : value)
  : database * response :=
  match Student_query_get db id with
  | Raise e => (db, mkResponse (Unhandled e) 500)
  | Ret None => (db, NotFound)
  | Ret (Some student) =>
      if negb (truthy data) then (db, NoInput)
      else
        match update_body db student data with
        | Ret (db', student') =>
            (db', jsonify (MessageStudent "Student updated!" (to_dict student')))
        | Raise ValueError => (db, InvalidDateFormat)
        | Raise e => (db, mkResponse (MessageExn "Error updating student: " e) 500)
        end
  end.

(** [DELETE /students/<int:student_id>]; nothing in the view catches what
    the lookup raises. *)
Definition delete_student (db : database) (id : Z) : database * response :=
  match Student_query_get db id with
  | Raise e => (db, mkResponse (Unhandled e) 500)
  | Ret None => (db, NotFound)
  | Ret (Some student) =>
      (commit_delete db student, mkResponse (Message "Student deleted!") 200)
  end.

End Views.

(** ** The upload view *)

(** A part of the multipart request: the client's filename and the bytes. *)
Record FileStorage : Type := mkFile { filename : string; stream : string }.

(** [request.files], read by first match like the dicts above. *)
Definition request_files : Type := list (string * FileStorage).

Fixpoint files_get (k : string) (files : request_files) : option FileStorage :=
  match files with
  | [] => None
  | (k', f) :: files' => if (k =? k')%string then Some f else files_get k files'
  end.

(** The files on disk: path and content, the latest write first; a file
    is known by the spelling of its path. *)
Definition filesystem : Type := list (string * string).

Fixpoint read_file (fs : filesystem) (path : string) : option string :=
  match fs with
  | [] => None
  | (p, c) :: fs' => if (p =? path)%string then Some c else read_file fs' path
  end.

(** [str.lower] on code points below 256: A-Z and the accented capitals
    of Latin-1 move up by 32. *)
Definition lower_char (c : ascii) : ascii :=
  let n := Z.of_nat (nat_of_ascii c) in
  if ((65 <=? n) && (n <=? 90))
     || ((192 <=? n) && (n <=? 222) && negb (n =? 215))
  then ascii_of_nat (Z.to_nat (n + 32))
  else c.

Fixpoint lower (s : string) : string :=
  match s with
  | EmptyString => EmptyString
  | String c s' => String (lower_char c) (lower s')
  end.

(** The split at the last occurrence of [sep], when there is one. *)
Fixpoint split_last (sep : ascii) (s : string) : option (string * string) :=
  match s with
  | EmptyString => None
  | String c s' =>
      match split_last sep s' with
      | Some (h, t) => Some (String c h, t)
      | None => if Ascii.eqb c sep then Some (EmptyString, s') else None
      end
  end.

(** [s.rsplit(sep, 1)] *)
Definition rsplit1 (sep : ascii) (s : string) : list string :=
  match split_last sep s with
  | Some (h, t) => [h; t]
  | None => [s]
  end.

Definition ALLOWED_EXTENSIONS : list string := ["png"; "jpg"; "jpeg"; "gif"].

Definition in_set (x : string) (l : list string) : bool :=
  existsb (String.eqb x) l.

(** [allowed_file]:
    ['.' in filename and filename.rsplit('.', 1)[1].lower() in ALLOWED_EXTENSIONS] *)
Definition allowed_file (filename : string) : bool :=
  is_infix "." filename &&
  match nth_error (rsplit1 "." filename) 1 with
  | Some ext => in_set (lower ext) ALLOWED_EXTENSIONS
  | None => false
  end.

Definition ends_with_sep (s : string) : bool :=
  match String.get (String.length s - 1) s with
  | Some c => Ascii.eqb c "/"
  | None => false
  end.

(** [os.path.join(a, b)] of [posixpath]: an absolute [b] replaces [a]. *)
Definition path_join (a b : string) : string :=
  if String.prefix "/" b then b
  else if (a =? "")%string || ends_with_sep a then a ++ b
  else a ++ "/" ++ b.

(** [bool(file)] is [bool(file.filename)]. *)
Definition file_truthy (file : FileStorage) : bool :=
  negb (filename file =? "")%string.

(** [file.save(path)], the directory of [path] taken to exist. *)
Definition save (file : FileStorage) (path : string) (fs : filesystem) : filesystem :=
  (path, stream file) :: fs.

Definition NoFilePart : response := mkResponse (ErrorBody "No file part") 400.
Definition NoFilename : response := mkResponse (ErrorBody "No selected file") 400.
Definition InvalidFileType : response := mkResponse (ErrorBody "Invalid file type") 400.
Definition Uploaded : response := mkResponse (Message "File uploaded successfully") 200.

(** [POST /upload] *)
Definition upload_file (fs : filesystem) (files : request_files)
  : filesystem * response :=
  match files_get "file" files with
  | None => (fs, NoFilePart)
  | Some file =>
      if (filename file =? "")%string then (fs, NoFilename)
      else if file_truthy file && allowed_file (filename file) then
        let path := path_join "uploads" (filename file) in
        (save file path fs, Uploaded)
      else (fs, InvalidFileType)
  end.

(** ** The service as a transition system *)

Inductive request : Type :=
| Create (data : value)
| ListAll
| Get (id : Z)
| Update (id : Z) (data : value)
| Delete (id : Z).

Section Service.

Variable E : engine.

Definition step (db : database) (r : request) : database * response :=
  match r with
  | Create data => create_student E db data
  | ListAll => (db, get_students db)
  | Get id => (db, get_student db id)
  | Update id data => update_student E db id data
  | Delete id => delete_student db id
  end.

(** The tables the service can hold: the empty one of [db.create_all()]
    and whatever the views make of it. *)
Inductive reachable : database -> Prop :=
| reach_init : reachable []
| reach_step db r : reachable db -> reachable (fst (step db r)).

(** A run of [POST /students] requests, the responses in request order. *)
Fixpoint create_many (db : database) (reqs : list value)
  : database * list response :=
  match reqs with
  | [] => (db, [])
  | data :: reqs' =>
      let (db1, r) := create_student E db data in
      let (db2, rs) := create_many db1 reqs' in
      (db2, r :: rs)
  end.

End Service.

(** An engine that converts no text, for running the views on payloads
    whose names are strings and whose amounts are numbers. *)
Definition strict_engine : engine := mkEngine (fun _ => None) (fun _ => "").

(** A one-row table and its row, for worked instances of the views. *)
Definition ada : Student :=
  mkStudent 1 "Ada" "Lovelace" (mkDate 1815 12 10) 10.5%float.

(** ** Properties of rows and payloads *)

(** [k] is among the keys the payload holds: [k in data] is true. *)
Definition present (k : string) (data : value) : Prop :=
  contains k data = Ret true.

(** The payload is a dict that maps [k] to [v]. *)
Definition supplies (data : value) (k : string) (v : value) : Prop :=
  getitem data k = Ret v.

(** The primary key: no two rows share a [student_id]. *)
Definition primary_key (db : database) : Prop :=
  NoDup (map student_id db).

(** What the NOT NULL DATE and FLOAT columns hold: a calendar date and a
    double that is neither NaN (the value SQLite reads as NULL) nor the
    negative zero (which it reads back as [0.0]). *)
Definition row_ok (s : Student) : Prop :=
  valid_date (dob s) = true /\ PrimFloat.is_nan (amount_due s) = false /\
  is_neg_zero (amount_due s) = false.

Definition well_formed (db : database) : Prop :=
  primary_key db /\ Forall row_ok db.

(** The shape of a serialized record: the five keys, an integer id, two
    strings, a string that reads back as a calendar date, a number. *)
Definition well_typed (v : value) : Prop :=
  exists i fn ln ds am d,
    v = VDict [ ("student_id", VInt i); ("first_name", VStr fn);
                ("last_name", VStr ln); ("dob", VStr ds);
                ("amount_due", VFloat am) ]
    /\ strptime_str ds = Ret d /\ isoformat d = ds
    /\ PrimFloat.is_nan am = false.

(** The zero-padded form [dddd-dd-dd]. *)
Definition zero_padded (s : string) : bool :=
  match s with
  | String a (String b (String c (String d (String h1
      (String e (String f (String h2 (String g (String h EmptyString))))))))) =>
      is_digit a && is_digit b && is_digit c && is_digit d && is_char "-" h1
      && is_digit e && is_digit f && is_char "-" h2 && is_digit g && is_digit h
  | _ => false
  end.

(** The fields a client supplies at creation, typed as the data model has
    them. *)
Record fields : Type := mkFields {
  f_first_name : string;
  f_last_name : string;
  f_dob : string;
  f_amount_due : float
}.

Definition supplies_fields (data : value) (x : fields) : Prop :=
  supplies data "first_name" (VStr (f_first_name x)) /\
  supplies data "last_name" (VStr (f_last_name x)) /\
  supplies data "dob" (VStr (f_dob x)) /\
  supplies data "amount_due" (VFloat (f_amount_due x)).

(** A listed entry gives back what was supplied: the names, the date in
    ISO form, the amount as the FLOAT column stores it. *)
Definition round_trips (entry : value) (x : fields) : Prop :=
  exists i d,
    strptime_str (f_dob x) = Ret d /\
    entry = VDict [ ("student_id", VInt i);
                    ("first_name", VStr (f_first_name x));
                    ("last_name", VStr (f_last_name x));
                    ("dob", VStr (isoformat d));
                    ("amount_due", VFloat (stored_real (f_amount_due x))) ] /\
    (zero_padded (f_dob x) = true -> isoformat d = f_dob x) /\
    (is_neg_zero (f_amount_due x) = false ->
     stored_real (f_amount_due x) = f_amount_due x).

(** The extension of a filename as the upload contract words it: what
    follows the last ['.'] of the name. *)
Definition dotless (s : string) : Prop :=
  ~ In "."%char (list_ascii_of_string s).

Definition extension_of (name ext : string) : Prop :=
  exists stem, name = stem ++ "." ++ ext /\ dotless ext.

(** A path lies under a directory by name when its spelling starts with
    the directory and a separator (no [..] is resolved). *)
Definition under (dir path : string) : bool :=
  String.prefix (dir ++ "/") path.

(** The four fields [create_student] requires. *)
Definition required_fields : list string :=
  ["first_name"; "last_name"; "dob"; "amount_due"].

(** ** Decision procedures over the digits and the calendar *)

Definition digits : list ascii :=
  ["0"; "1"; "2"; "3"; "4"; "5"; "6"; "7"; "8"; "9"]%char.

(** [pad4] of a year is four digits that read back as the year. *)
Definition year_prints (y : Z) : bool :=
  match pad4 y with
  | String a (String b (String c (String d EmptyString))) =>
      is_digit a && is_digit b && is_digit c && is_digit d
      && (1000 * digit_val a + 100 * digit_val b + 10 * digit_val c + digit_val d =? y)
  | _ => false
  end.

(** The zero-padded month and day read back through the pattern. *)
Definition month_day_reads (m d : Z) : bool :=
  match match_md (pad2 m ++ "-" ++ pad2 d) with
  | Some (m', d', EmptyString) => (m' =? m) && (d' =? d)
  | _ => false
  end.

(** Four digits print back under [pad4]. *)
Definition year_reprints (a b c d : ascii) : bool :=
  (pad4 (1000 * digit_val a + 100 * digit_val b + 10 * digit_val c + digit_val d)
   =? String a (String b (String c (String d EmptyString))))%string.

(** Two digits, a dash and two digits: when the pattern consumes them all,
    month and day print back as they were written. *)
Definition month_day_reprints (e f g h : ascii) : bool :=
  let s := String e (String f (String "-" (String g (String h EmptyString)))) in
  match match_md s with
  | Some (m, d, EmptyString) => (pad2 m ++ "-" ++ pad2 d =? s)%string
  | _ => true
  end.

(** The integers [lo], ..., [lo + n - 1]. *)
Definition range (lo n : Z) : list Z :=
  map Z.of_nat (seq (Z.to_nat lo) (Z.to_nat n)).

(** The JSON object a client sends to create a student from [x]. *)
Definition body_of (x : fields) : value :=
  VDict [ ("first_name", VStr (f_first_name x));
          ("last_name", VStr (f_last_name x));
          ("dob", VStr (f_dob x));
          ("amount_due", VFloat (f_amount_due x)) ].

Definition ada_fields : fields :=
  mkFields "Ada" "Lovelace" "1815-12-10" 10.5%float.

(** A date written without padding. *)
Definition grace_fields : fields :=
  mkFields "Grace" "Hopper" "1906-12-9" 0%float.

(** A first name that is the empty string. *)
Definition nameless_fields : fields :=
  mkFields "" "Lovelace" "1815-12-10" 10.5%float.

(** ** The rest of the model and of the views *)

(** [Student.__repr__]:
    [f"Student(first_name='{self.first_name}', last_name='{self.last_name}')"]
    on a loaded row, whose names are strings. *)
Definition __repr__ (self : Student) : string :=
  "Student(first_name='" ++ first_name self ++ "', last_name='"
  ++ last_name self ++ "')".

(** No single quote among the characters of [s]. *)
Definition quoteless (s : string) : Prop :=
  ~ In "'"%char (list_ascii_of_string s).

Definition is_string (v : value) : bool :=
  match v with
  | VStr _ => true
  | _ => false
  end.

(** The JSON scalars that are neither null nor a string: Python's [bool],
    [int] and [float], on which [in] raises. *)
Definition is_number (v : value) : bool :=
  match v with
  | VBool _ | VInt _ | VFloat _ => true
  | _ => false
  end.

(** The record a creation from [x] stores in [db], its date parsed to [d]. *)
Definition created (db : database) (x : fields) (d : date) : Student :=
  mkStudent (next_id db) (f_first_name x) (f_last_name x) d
    (stored_real (f_amount_due x)).

(** The fields of a stored row, as a client would send them back. *)
Definition fields_of (s : Student) : fields :=
  mkFields (first_name s) (last_name s) (isoformat (dob s)) (amount_due s).

(** A multipart request with the one field [file]. *)
Definition one_file (name bytes : string) : request_files :=
  [("file", mkFile name bytes)].

(** The answers that report a success: 200 and 201. *)
Definition succeeded (r : response) : bool :=
  (status r =? 200) || (status r =? 201).


(** * Properties *)

(** ** The table primitives *)

Lemma query_get_Some (db : database) (id : Z) (s : Student) :
  query_get db id = Some s -> student_id s = id /\ In s db.
Proof.
  induction db as [|r db IH]; simpl; [discriminate|].
  destruct (student_id r =? id) eqn:Hid.
  - intros [= ->]. apply Z.eqb_eq in Hid. auto.
  - intros H. destruct (IH H). auto.
Qed.

Lemma query_get_None (db : database) (id : Z) :
  query_get db id = None -> ~ In id (map student_id db).
Proof.
  induction db as [|r db IH]; simpl; [tauto|].
  destruct (student_id r =? id) eqn:Hid; [discriminate|].
  apply Z.eqb_neq in Hid. intros H [Hr|Hin]; [contradiction|].
  exact (IH H Hin).
Qed.

Lemma query_get_In (db : database) (s : Student) :
  In s db -> exists s', query_get db (student_id s) = Some s'.
Proof.
  induction db as [|r db IH]; simpl; [tauto|].
  intros [->|Hin].
  - rewrite Z.eqb_refl. eauto.
  - destruct (student_id r =? student_id s); eauto.
Qed.

Lemma query_get_deleted (db : database) (s : Student) :
  query_get (commit_delete db s) (student_id s) = None.
Proof.
  unfold commit_delete.
  induction db as [|r db IH]; simpl; [reflexivity|].
  destruct (student_id r =? student_id s) eqn:Hid; simpl; [exact IH|].
  rewrite Hid. exact IH.
Qed.

Lemma query_get_replaced (db : database) (id : Z) (s s' : Student) :
  query_get db id = Some s -> student_id s' = id ->
  query_get (replace_row s' db) id = Some s'.
Proof.
  intros Hget <-. unfold replace_row.
  induction db as [|r db IH]; simpl in *; [discriminate|].
  destruct (student_id r =? student_id s') eqn:Hr; simpl.
  - rewrite Z.eqb_refl. reflexivity.
  - rewrite Hr. auto.
Qed.

Lemma query_get_replaced_other (db : database) (id : Z) (s' : Student) :
  id <> student_id s' ->
  query_get (replace_row s' db) id = query_get db id.
Proof.
  intros Hne. unfold replace_row.
  induction db as [|r db IH]; simpl; [reflexivity|].
  destruct (student_id r =? student_id s') eqn:Hr.
  - apply Z.eqb_eq in Hr.
    destruct (student_id s' =? id) eqn:H1; [apply Z.eqb_eq in H1; congruence|].
    destruct (student_id r =? id) eqn:H2; [apply Z.eqb_eq in H2; congruence|].
    exact IH.
  - destruct (student_id r =? id); [reflexivity | exact IH].
Qed.

Lemma replace_row_ids (db : database) (s' : Student) :
  map student_id (replace_row s' db) = map student_id db.
Proof.
  unfold replace_row. rewrite map_map. apply map_ext_in.
  intros r _. destruct (student_id r =? student_id s') eqn:Hr; [|reflexivity].
  apply Z.eqb_eq in Hr. congruence.
Qed.

Lemma primary_key_injective (db : database) (a b : Student) :
  primary_key db -> In a db -> In b db -> student_id a = student_id b -> a = b.
Proof.
  unfold primary_key.
  induction db as [|r db IH]; simpl; [tauto|].
  intros Hnd Ha Hb Hab. inversion Hnd as [|? ? Hnotin Hnd']; subst.
  destruct Ha as [->|Ha], Hb as [->|Hb]; auto.
  - exfalso. apply Hnotin. rewrite Hab. now apply in_map.
  - exfalso. apply Hnotin. rewrite <- Hab. now apply in_map.
Qed.

Lemma replace_row_same (db : database) (s : Student) :
  primary_key db -> In s db -> replace_row s db = db.
Proof.
  intros Hpk Hin. unfold replace_row.
  rewrite <- (map_id db) at 2. apply map_ext_in.
  intros r Hr. destruct (student_id r =? student_id s) eqn:Hid; [|reflexivity].
  apply Z.eqb_eq in Hid. symmetry. now apply (primary_key_injective db).
Qed.

(** ** Ids and the lookup *)

Lemma Student_eq (s1 s2 : Student) :
  student_id s1 = student_id s2 -> first_name s1 = first_name s2 ->
  last_name s1 = last_name s2 -> dob s1 = dob s2 ->
  amount_due s1 = amount_due s2 -> s1 = s2.
Proof.
  destruct s1 as [i1 f1 l1 d1 a1 p1], s2 as [i2 f2 l2 d2 a2 p2]. simpl.
  intros -> -> -> -> ->. f_equal.
  apply Eqdep_dec.UIP_dec, Bool.bool_dec.
Qed.

Lemma student_id_mkStudent (i : Z) (fn ln : string) (d : date) (am : float) :
  fits_int64 i = true -> student_id (mkStudent i fn ln d am) = i.
Proof. intros H. simpl. unfold as_rowid. now rewrite H. Qed.

Lemma query_get_fits (db : database) (id : Z) (s : Student) :
  query_get db id = Some s -> fits_int64 id = true.
Proof.
  intros H. destruct (query_get_Some _ _ _ H) as [<- _]. apply student_id_fits.
Qed.

Lemma lookup_found (db : database) (id : Z) (s : Student) :
  query_get db id = Some s -> Student_query_get db id = Ret (Some s).
Proof.
  intros H. unfold Student_query_get. now rewrite (query_get_fits _ _ _ H), H.
Qed.

Lemma lookup_absent (db : database) (id : Z) :
  query_get db id = None ->
  Student_query_get db id = Ret None \/
  Student_query_get db id = Raise OverflowError.
Proof.
  intros H. unfold Student_query_get. rewrite H.
  destruct (fits_int64 id); auto.
Qed.

Lemma no_row_outside (db : database) (id : Z) :
  fits_int64 id = false -> query_get db id = None.
Proof.
  intros H. destruct (query_get db id) as [s|] eqn:Hget; [|reflexivity].
  rewrite (query_get_fits _ _ _ Hget) in H. discriminate.
Qed.

(** On an id that is not in the table, [update_student] answers 404 or,
    when the id cannot be bound, 500, and returns the table. *)
Lemma update_student_absent (E : engine) (db : database) (id : Z) (data : value) :
  query_get db id = None ->
  update_student E db id data = (db, NotFound) \/
  update_student E db id data = (db, mkResponse (Unhandled OverflowError) 500).
Proof.
  intros H. unfold update_student.
  destruct (lookup_absent _ _ H) as [-> | ->]; auto.
Qed.

Lemma delete_student_absent (db : database) (id : Z) :
  query_get db id = None ->
  delete_student db id = (db, NotFound) \/
  delete_student db id = (db, mkResponse (Unhandled OverflowError) 500).
Proof.
  intros H. unfold delete_student.
  destruct (lookup_absent _ _ H) as [-> | ->]; auto.
Qed.

Lemma get_student_absent (db : database) (id : Z) :
  query_get db id = None ->
  get_student db id = NotFound \/
  get_student db id = mkResponse (Unhandled OverflowError) 500.
Proof.
  intros H. unfold get_student.
  destruct (lookup_absent _ _ H) as [-> | ->]; auto.
Qed.

Lemma get_student_found (db : database) (id : Z) (s : Student) :
  query_get db id = Some s ->
  get_student db id = mkResponse (StudentBody (to_dict s)) 200.
Proof.
  intros H. unfold get_student. now rewrite (lookup_found _ _ _ H).
Qed.

(** ** Update: rejections (C8) *)

(** C8, as the code has it: [update_student] answers NotFound (404) for
    every id that fits a signed 64-bit integer and that the table does not
    hold, whatever the payload, and NoInput (400) when the id exists and the
    payload is empty or absent ([None], the empty dict, any falsy value);
    for an id that does not fit, the lookup raises before the [try] block
    and the answer is 500; in all these cases the table is returned as it
    was. *)
Theorem update_rejections (E : engine) (db : database) (id : Z) (data : value) :
  status NotFound = 404 /\ status NoInput = 400 /\
  (fits_int64 id = true -> query_get db id = None ->
   update_student E db id data = (db, NotFound)) /\
  (forall s, query_get db id = Some s -> truthy data = false ->
             update_student E db id data = (db, NoInput)) /\
  (forall s, query_get db id = Some s ->
             update_student E db id VNone = (db, NoInput) /\
             update_student E db id (VDict []) = (db, NoInput)) /\
  (fits_int64 id = false ->
   query_get db id = None /\
   update_student E db id data = (db, mkResponse (Unhandled OverflowError) 500)).
Proof.
  split; [reflexivity|]. split; [reflexivity|]. split; [|split; [|split]].
  - intros Hf Hn. unfold update_student, Student_query_get. now rewrite Hf, Hn.
  - intros s Hs Ht. unfold update_student. now rewrite (lookup_found _ _ _ Hs), Ht.
  - intros s Hs. unfold update_student. now rewrite (lookup_found _ _ _ Hs).
  - intros Hf. split; [now apply no_row_outside|].
    unfold update_student, Student_query_get. now rewrite Hf.
Qed.

(** C8 as stated fails: the id 2^63 is not in the store, and
    [update_student] answers 500 on it, not NotFound. *)
Lemma update_unbindable_id :
  query_get [] (2 ^ 63) = None /\
  forall (E : engine) (data : value),
    update_student E [] (2 ^ 63) data
    = ([], mkResponse (Unhandled OverflowError) 500) /\
    snd (update_student E [] (2 ^ 63) data) <> NotFound.
Proof.
  split; [reflexivity|]. intros E data. split; [reflexivity | discriminate].
Qed.

(** ** Delete (C4) *)

(** C4, as the code has it: for every table and every id that fits a
    signed 64-bit integer, [delete_student] answers NotFound (404) and
    leaves the table alone when the id is absent, and answers 200 when it is
    present; in either case, on the table it returns, [get_student] on that
    id answers NotFound and a further [delete_student] answers NotFound
    again without changing the table.  For an id that does not fit, the
    lookup raises and both views answer 500, the table as it was. *)
Theorem delete_then_not_found (db : database) (id : Z) :
  status NotFound = 404 /\
  (fits_int64 id = true ->
   let (db', r) := delete_student db id in
   match query_get db id with
   | Some _ => status r = 200
   | None => r = NotFound /\ db' = db
   end /\
   get_student db' id = NotFound /\
   delete_student db' id = (db', NotFound)) /\
  (fits_int64 id = false ->
   query_get db id = None /\
   delete_student db id = (db, mkResponse (Unhandled OverflowError) 500) /\
   get_student db id = mkResponse (Unhandled OverflowError) 500).
Proof.
  split; [reflexivity|]. split.
  - intros Hf. unfold delete_student, get_student, Student_query_get. rewrite Hf.
    destruct (query_get db id) as [s|] eqn:Hget.
    + destruct (query_get_Some _ _ _ Hget) as [<- _].
      rewrite query_get_deleted. auto.
    + rewrite Hget. auto.
  - intros Hf. split; [now apply no_row_outside|].
    unfold delete_student, get_student, Student_query_get. now rewrite Hf.
Qed.

(** C4 as stated fails: the id 2^63 was never present, and [delete_student]
    and [get_student] answer 500 on it, not NotFound. *)
Lemma delete_unbindable_id :
  query_get [] (2 ^ 63) = None /\
  delete_student [] (2 ^ 63) = ([], mkResponse (Unhandled OverflowError) 500) /\
  snd (delete_student [] (2 ^ 63)) <> NotFound /\
  get_student [] (2 ^ 63) <> NotFound.
Proof.
  split; [reflexivity|]. split; [reflexivity|]. split; discriminate.
Qed.

(** ** Update: what the [try] block does *)

Lemma assign_if_present_Ret {A : Type} (k : string) (data : value)
    (f : value -> outcome A) (o : option A) :
  assign_if_present k data f = Ret o ->
  (o = None /\ contains k data = Ret false) \/
  (exists v a, o = Some a /\ present k data /\ supplies data k v /\ f v = Ret a).
Proof.
  unfold assign_if_present, present, supplies, bind.
  destruct (contains k data) as [[|]|]; try discriminate.
  - destruct (getitem data k) as [v|]; try discriminate.
    destruct (f v) as [a|] eqn:Hf; try discriminate.
    intros [= <-]. right. exists v, a. auto.
  - intros [= <-]. left. auto.
Qed.

Lemma assign_if_present_absent {A : Type} (k : string) (data : value)
    (f : value -> outcome A) (o : option A) :
  ~ present k data -> assign_if_present k data f = Ret o -> o = None.
Proof.
  intros Hn H. destruct (assign_if_present_Ret _ _ _ _ H) as [[-> _]|(v & a & _ & Hp & _)].
  - reflexivity.
  - contradiction.
Qed.

Lemma update_body_Ret (E : engine) (db db' : database) (s s' : Student)
    (data : value) :
  update_body E db s data = Ret (db', s') ->
  exists fn ln d am,
    assign_if_present "first_name" data Ret = Ret fn /\
    assign_if_present "last_name" data Ret = Ret ln /\
    assign_if_present "dob" data strptime = Ret d /\
    assign_if_present "amount_due" data Ret = Ret am /\
    flush_row E s (mkPending fn ln d am) = Ret s' /\
    db' = replace_row s' db.
Proof.
  unfold update_body, commit_update, bind.
  destruct (assign_if_present "first_name" data Ret) as [fn|]; try discriminate.
  destruct (assign_if_present "last_name" data Ret) as [ln|]; try discriminate.
  destruct (assign_if_present "dob" data strptime) as [d|]; try discriminate.
  destruct (assign_if_present "amount_due" data Ret) as [am|]; try discriminate.
  destruct (flush_row E s (mkPending fn ln d am)) as [r|] eqn:Hr; try discriminate.
  intros [= <- <-]. exists fn, ln, d, am. repeat split; auto.
Qed.

Lemma flush_row_Ret (E : engine) (s s' : Student) (p : pending) :
  flush_row E s p = Ret s' ->
  student_id s' = student_id s /\
  flush_text E (first_name s) (p_first_name p) = Ret (first_name s') /\
  flush_text E (last_name s) (p_last_name p) = Ret (last_name s') /\
  dob s' = flush_date (dob s) (p_dob p) /\
  flush_real E (amount_due s) (p_amount_due p) = Ret (amount_due s').
Proof.
  unfold flush_row, bind.
  destruct (flush_text E (first_name s) (p_first_name p)) as [fn|]; try discriminate.
  destruct (flush_text E (last_name s) (p_last_name p)) as [ln|]; try discriminate.
  destruct (flush_real E (amount_due s) (p_amount_due p)) as [am|]; try discriminate.
  intros [= <-]. simpl. repeat split; auto.
Qed.

(** Whatever the outcome, the table [update_student] returns is either the
    one it was given or the committed one. *)
Lemma update_student_cases (E : engine) (db : database) (id : Z) (data : value)
    (s : Student) :
  query_get db id = Some s ->
  (fst (update_student E db id data) = db /\
   status (snd (update_student E db id data)) <> 200) \/
  (exists db' s', update_body E db s data = Ret (db', s') /\
                  truthy data = true /\
                  update_student E db id data =
                    (db', jsonify (MessageStudent "Student updated!" (to_dict s')))).
Proof.
  intros Hget. unfold update_student. rewrite (lookup_found _ _ _ Hget).
  destruct (truthy data); simpl.
  - destruct (update_body E db s data) as [[db' s']|e] eqn:Hb.
    + right. exists db', s'. auto.
    + left. destruct e; simpl; split; auto; discriminate.
  - left. split; auto. discriminate.
Qed.

(** ** Update: partial semantics (C1) *)

(** C1: for every existing student and every payload, after
    [update_student] the student is still stored under the same
    [student_id], each of first_name, last_name, dob, amount_due that is not
    present in the payload has the value it had, and the other rows read as
    before; when the update succeeds, a field that is present holds the
    payload's value as the column stores it.  In particular a payload with
    amount_due alone leaves first_name, last_name and dob unchanged. *)
Theorem update_frame (E : engine) (db : database) (id : Z) (data : value)
    (s : Student) :
  query_get db id = Some s ->
  let (db', r) := update_student E db id data in
  exists s',
    query_get db' id = Some s' /\
    student_id s' = student_id s /\
    (~ present "first_name" data -> first_name s' = first_name s) /\
    (~ present "last_name" data -> last_name s' = last_name s) /\
    (~ present "dob" data -> dob s' = dob s) /\
    (~ present "amount_due" data -> amount_due s' = amount_due s) /\
    (forall v, data = VDict [("amount_due", v)] ->
               first_name s' = first_name s /\ last_name s' = last_name s /\
               dob s' = dob s) /\
    (forall id', id' <> id -> query_get db' id' = query_get db id') /\
    (status r = 200 ->
     (present "first_name" data ->
      exists v, supplies data "first_name" v /\ bind_text E v = Ret (first_name s')) /\
     (present "last_name" data ->
      exists v, supplies data "last_name" v /\ bind_text E v = Ret (last_name s')) /\
     (present "dob" data ->
      exists v, supplies data "dob" v /\ strptime v = Ret (dob s')) /\
     (present "amount_due" data ->
      exists v, supplies data "amount_due" v /\ bind_real E v = Ret (amount_due s'))).
Proof.
  intros Hget.
  assert (Honly : forall v, data = VDict [("amount_due", v)] ->
            ~ present "first_name" data /\ ~ present "last_name" data /\
            ~ present "dob" data).
  { intros v ->. unfold present. simpl. repeat split; discriminate. }
  destruct (update_student_cases E db id data s Hget)
    as [[Hdb Hst]|(db' & s' & Hbody & _ & Heq)].
  - destruct (update_student E db id data) as [db' r]. simpl in *. subst db'.
    exists s. repeat split; auto; contradiction.
  - rewrite Heq.
    destruct (update_body_Ret _ _ _ _ _ _ Hbody)
      as (fn & ln & d & am & Hfn & Hln & Hd & Ham & Hflush & ->).
    destruct (flush_row_Ret _ _ _ _ Hflush) as (Hid & Hf1 & Hf2 & Hf3 & Hf4).
    simpl in Hf1, Hf2, Hf3, Hf4.
    destruct (query_get_Some _ _ _ Hget) as [Hsid _].
    assert (F1 : ~ present "first_name" data -> first_name s' = first_name s).
    { intros Hn. rewrite (assign_if_present_absent _ _ _ _ Hn Hfn) in Hf1.
      simpl in Hf1. congruence. }
    assert (F2 : ~ present "last_name" data -> last_name s' = last_name s).
    { intros Hn. rewrite (assign_if_present_absent _ _ _ _ Hn Hln) in Hf2.
      simpl in Hf2. congruence. }
    assert (F3 : ~ present "dob" data -> dob s' = dob s).
    { intros Hn. rewrite (assign_if_present_absent _ _ _ _ Hn Hd) in Hf3.
      exact Hf3. }
    assert (F4 : ~ present "amount_due" data -> amount_due s' = amount_due s).
    { intros Hn. rewrite (assign_if_present_absent _ _ _ _ Hn Ham) in Hf4.
      simpl in Hf4. congruence. }
    exists s'. split; [apply (query_get_replaced db id s s' Hget); congruence|].
    split; [exact Hid|]. do 4 (split; [assumption|]).
    split; [intros v Hv; destruct (Honly v Hv) as (? & ? & ?); auto|].
    split; [intros id' Hne; apply query_get_replaced_other; congruence|].
    intros _. repeat split; intros Hp.
    + destruct (assign_if_present_Ret _ _ _ _ Hfn) as [[_ Hc]|(v & a & -> & _ & Hs & [= ->])];
        [unfold present in Hp; congruence|]. exists a. auto.
    + destruct (assign_if_present_Ret _ _ _ _ Hln) as [[_ Hc]|(v & a & -> & _ & Hs & [= ->])];
        [unfold present in Hp; congruence|]. exists a. auto.
    + destruct (assign_if_present_Ret _ _ _ _ Hd) as [[_ Hc]|(v & a & -> & _ & Hs & Hv)];
        [unfold present in Hp; congruence|]. exists v. simpl in Hf3. split; congruence.
    + destruct (assign_if_present_Ret _ _ _ _ Ham) as [[_ Hc]|(v & a & -> & _ & Hs & [= ->])];
        [unfold present in Hp; congruence|]. exists a. auto.
Qed.

(** The frame at a one-row table and a payload with amount_due alone. *)
Lemma update_frame_witness :
  query_get [ada] 1 = Some ada /\
  let (db', r) := update_student strict_engine [ada] 1
                    (VDict [("amount_due", VFloat 0%float)]) in
  exists s',
    query_get db' 1 = Some s' /\
    student_id s' = student_id ada /\
    first_name s' = first_name ada /\ last_name s' = last_name ada /\
    dob s' = dob ada.
Proof.
  split; [reflexivity|].
  pose proof (update_frame strict_engine [ada] 1
                (VDict [("amount_due", VFloat 0%float)]) ada eq_refl) as H.
  destruct (update_student strict_engine [ada] 1
              (VDict [("amount_due", VFloat 0%float)])) as [db' r].
  destruct H as (s' & Hq & Hid & _ & _ & _ & _ & Honly & _).
  destruct (Honly _ eq_refl) as (H1 & H2 & H3).
  exists s'. auto.
Defined.

(** ** Update: a payload with none of the four keys (C10) *)

(** C10: for every existing student, a payload that is non-empty (truthy)
    and in which none of first_name, last_name, dob, amount_due is present
    is not answered NoInput: [update_student] answers 200 with the record as
    it was, and the table is unchanged. *)
Theorem update_without_known_keys (E : engine) (db : database) (id : Z)
    (data : value) (s : Student) :
  primary_key db ->
  query_get db id = Some s ->
  truthy data = true ->
  contains "first_name" data = Ret false ->
  contains "last_name" data = Ret false ->
  contains "dob" data = Ret false ->
  contains "amount_due" data = Ret false ->
  update_student E db id data
    = (db, mkResponse (MessageStudent "Student updated!" (to_dict s)) 200)
  /\ snd (update_student E db id data) <> NoInput.
Proof.
  intros Hpk Hget Ht H1 H2 H3 H4.
  assert (Heq : update_student E db id data
                = (db, mkResponse (MessageStudent "Student updated!" (to_dict s)) 200)).
  { unfold update_student. rewrite (lookup_found _ _ _ Hget), Ht. simpl.
    unfold update_body, assign_if_present. rewrite H1, H2, H3, H4. simpl.
    destruct (query_get_Some _ _ _ Hget) as [_ Hin].
    destruct s as [i fn ln d am Hi]. simpl.
    rewrite (replace_row_same db _ Hpk Hin). reflexivity. }
  split; [exact Heq|]. rewrite Heq. discriminate.
Qed.

Lemma primary_key_ada : primary_key [ada].
Proof.
  unfold primary_key. simpl. constructor; [simpl; tauto | constructor].
Defined.

(** A payload whose only key is unknown to the view. *)
Lemma update_without_known_keys_witness :
  primary_key [ada] /\ query_get [ada] 1 = Some ada /\
  truthy (VDict [("nickname", VStr "Countess")]) = true /\
  update_student strict_engine [ada] 1 (VDict [("nickname", VStr "Countess")])
    = ([ada], mkResponse (MessageStudent "Student updated!" (to_dict ada)) 200).
Proof.
  split; [exact primary_key_ada|]. split; [reflexivity|]. split; [reflexivity|].
  apply (update_without_known_keys strict_engine [ada] 1
           (VDict [("nickname", VStr "Countess")]) ada);
    solve [exact primary_key_ada | reflexivity].
Defined.

(** ** Dates *)

Lemma in_range_list (lo n z : Z) :
  0 <= lo -> lo <= z < lo + n -> In z (range lo n).
Proof.
  intros Hlo H. unfold range. replace z with (Z.of_nat (Z.to_nat z)) by lia.
  apply in_map, in_seq. lia.
Qed.

Lemma is_digit_cases (c : ascii) : is_digit c = true -> In c digits.
Proof.
  destruct c as [[] [] [] [] [] [] [] []]; vm_compute; intros H;
    try discriminate; tauto.
Qed.

Lemma years_print : forallb year_prints (range 1 9999) = true.
Proof. vm_compute. reflexivity. Qed.

Lemma months_days_read :
  forallb (fun m => forallb (month_day_reads m) (range 1 31)) (range 1 12) = true.
Proof. vm_compute. reflexivity. Qed.

Lemma years_reprint :
  forallb (fun a => forallb (fun b => forallb (fun c =>
    forallb (year_reprints a b c) digits) digits) digits) digits = true.
Proof. vm_compute. reflexivity. Qed.

Lemma months_days_reprint :
  forallb (fun e => forallb (fun f => forallb (fun g =>
    forallb (month_day_reprints e f g) digits) digits) digits) digits = true.
Proof. vm_compute. reflexivity. Qed.

Lemma days_in_month_le (y m : Z) : days_in_month y m <= 31.
Proof.
  unfold days_in_month.
  destruct (m =? 2); [destruct (is_leap y); lia|].
  destruct ((m =? 4) || (m =? 6) || (m =? 9) || (m =? 11)); lia.
Qed.

Lemma strptime_str_error (s : string) (e : exn) :
  strptime_str s = Raise e -> e = ValueError.
Proof.
  unfold strptime_str.
  destruct (regex_match s) as [[[[y m] d] rest]|]; [|congruence].
  destruct (negb (rest =? "")%string); [congruence|].
  destruct (valid_date _); congruence.
Qed.

Lemma strptime_str_valid (s : string) (d : date) :
  strptime_str s = Ret d -> valid_date d = true.
Proof.
  unfold strptime_str.
  destruct (regex_match s) as [[[[y m] dd] rest]|]; [|discriminate].
  destruct (negb (rest =? "")%string); [discriminate|].
  destruct (valid_date (mkDate y m dd)) eqn:Hv; [|discriminate].
  intros [= <-]. exact Hv.
Qed.

Lemma match_Y_digits (a b c d : ascii) (t : string) :
  is_digit a = true -> is_digit b = true -> is_digit c = true ->
  is_digit d = true ->
  match_Y (String a (String b (String c (String d t))))
  = Some (1000 * digit_val a + 100 * digit_val b + 10 * digit_val c + digit_val d, t).
Proof. unfold match_Y. intros -> -> -> ->. reflexivity. Qed.

Lemma match_dash_dash (t : string) : match_dash (String "-" t) = Some t.
Proof. reflexivity. Qed.

(** A calendar date printed by [isoformat] parses back to itself. *)
Lemma strptime_isoformat (d : date) :
  valid_date d = true -> strptime_str (isoformat d) = Ret d.
Proof.
  destruct d as [y m dd]. intros Hv.
  pose proof Hv as Hv'. unfold valid_date in Hv'. simpl in Hv'.
  repeat (apply andb_prop in Hv' as [Hv' ?]).
  repeat match goal with H : (_ <=? _) = true |- _ => apply Z.leb_le in H end.
  pose proof (days_in_month_le y m).
  assert (Hy : year_prints y = true).
  { pose proof years_print as P. rewrite forallb_forall in P.
    apply P, in_range_list; lia. }
  assert (Hmd : month_day_reads m dd = true).
  { pose proof months_days_read as P. rewrite forallb_forall in P.
    assert (Hm : In m (range 1 12)) by (apply in_range_list; lia).
    specialize (P m Hm). rewrite forallb_forall in P.
    apply P, in_range_list; lia. }
  unfold year_prints in Hy. unfold month_day_reads in Hmd.
  unfold strptime_str, regex_match, isoformat. simpl year. simpl month. simpl day.
  unfold pad4 in Hy |- *. unfold pad2 in Hy. unfold pad2 at 1.
  cbn [append].
  cbn [append] in Hmd.
  do 4 (apply andb_prop in Hy as [Hy ?]).
  rewrite match_Y_digits by assumption.
  rewrite match_dash_dash.
  match goal with H : (_ =? y) = true |- _ => apply Z.eqb_eq in H; rewrite H end.
  destruct (match_md (pad2 m ++ String "-" (pad2 dd))) as [[[m' d'] rest]|];
    [|discriminate].
  destruct rest; [|discriminate].
  apply andb_prop in Hmd as [Hm' Hd']. apply Z.eqb_eq in Hm', Hd'. subst m' d'.
  cbn [String.eqb negb]. rewrite Hv. reflexivity.
Qed.

Lemma zero_padded_shape (s : string) :
  zero_padded s = true ->
  exists a b c d e f g h,
    s = String a (String b (String c (String d (String "-"
          (String e (String f (String "-" (String g (String h "")))))))))
    /\ In a digits /\ In b digits /\ In c digits /\ In d digits
    /\ In e digits /\ In f digits /\ In g digits /\ In h digits.
Proof.
  unfold zero_padded.
  destruct s as [|a [|b [|c [|d [|h1 [|e [|f [|h2 [|g [|h [|]]]]]]]]]]];
    try discriminate.
  intros H. do 9 (apply andb_prop in H as [H ?]).
  unfold is_char in *.
  repeat match goal with
         | Hc : Ascii.eqb _ _ = true |- _ => apply Ascii.eqb_eq in Hc; subst
         end.
  exists a, b, c, d, e, f, g, h.
  repeat split; try reflexivity; now apply is_digit_cases.
Qed.

Lemma year_reprints_digits (a b c d : ascii) :
  In a digits -> In b digits -> In c digits -> In d digits ->
  pad4 (1000 * digit_val a + 100 * digit_val b + 10 * digit_val c + digit_val d)
  = String a (String b (String c (String d ""))).
Proof.
  intros Ha Hb Hc Hd. pose proof years_reprint as P.
  rewrite forallb_forall in P. specialize (P a Ha).
  rewrite forallb_forall in P. specialize (P b Hb).
  rewrite forallb_forall in P. specialize (P c Hc).
  rewrite forallb_forall in P. specialize (P d Hd).
  now apply String.eqb_eq in P.
Qed.

Lemma month_day_reprints_digits (e f g h : ascii) :
  In e digits -> In f digits -> In g digits -> In h digits ->
  month_day_reprints e f g h = true.
Proof.
  intros He Hf Hg Hh. pose proof months_days_reprint as P.
  rewrite forallb_forall in P. specialize (P e He).
  rewrite forallb_forall in P. specialize (P f Hf).
  rewrite forallb_forall in P. specialize (P g Hg).
  rewrite forallb_forall in P. exact (P h Hh).
Qed.

Lemma in_digits_is_digit (c : ascii) : In c digits -> is_digit c = true.
Proof.
  simpl. intros H.
  repeat (destruct H as [<-|H]; [reflexivity|]). contradiction.
Qed.

(** A string in zero-padded form that parses is printed back as it was. *)
Lemma isoformat_strptime_padded (s : string) (d : date) :
  strptime_str s = Ret d -> zero_padded s = true -> isoformat d = s.
Proof.
  intros Hparse Hpad.
  destruct (zero_padded_shape s Hpad)
    as (a & b & c & d' & e & f & g & h & -> & Ha & Hb & Hc & Hd & He & Hf & Hg & Hh).
  pose proof (year_reprints_digits a b c d' Ha Hb Hc Hd) as Hyear.
  pose proof (month_day_reprints_digits e f g h He Hf Hg Hh) as Hmd.
  unfold month_day_reprints in Hmd.
  unfold strptime_str, regex_match in Hparse.
  rewrite match_Y_digits in Hparse by now apply in_digits_is_digit.
  rewrite match_dash_dash in Hparse.
  remember (1000 * digit_val a + 100 * digit_val b + 10 * digit_val c
            + digit_val d') as y eqn:Ey.
  destruct (match_md (String e (String f (String "-" (String g (String h ""))))))
    as [[[m dd] rest]|]; [|discriminate].
  destruct rest; [|discriminate].
  cbn [String.eqb negb] in Hparse.
  destruct (valid_date _); [|discriminate].
  injection Hparse as <-.
  apply String.eqb_eq in Hmd.
  unfold isoformat. cbn [year month day].
  rewrite Hyear. cbn [append]. cbn [append] in Hmd. rewrite Hmd. reflexivity.
Qed.

(** ** What a commit stores *)

Lemma strptime_valid (v : value) (d : date) :
  strptime v = Ret d -> valid_date d = true.
Proof.
  destruct v; try discriminate. apply strptime_str_valid.
Qed.

Lemma stored_real_nan (f : float) :
  PrimFloat.is_nan f = false -> PrimFloat.is_nan (stored_real f) = false.
Proof.
  intros H. unfold stored_real. destruct (is_neg_zero f); [reflexivity | exact H].
Qed.

Lemma stored_real_neg_zero (f : float) : is_neg_zero (stored_real f) = false.
Proof.
  unfold stored_real. destruct (is_neg_zero f) eqn:H; [reflexivity | exact H].
Qed.

Lemma bind_real_stored (E : engine) (v : value) (f : float) :
  bind_real E v = Ret f ->
  PrimFloat.is_nan f = false /\ is_neg_zero f = false.
Proof.
  unfold bind_real, bind.
  destruct (match v with VNone => _ | _ => _ end) as [x|]; [|discriminate].
  destruct (PrimFloat.is_nan x) eqn:Hn; [discriminate|].
  intros [= <-]. split; [now apply stored_real_nan | apply stored_real_neg_zero].
Qed.

Lemma bind_real_not_nan (E : engine) (v : value) (f : float) :
  bind_real E v = Ret f -> PrimFloat.is_nan f = false.
Proof. intros H. exact (proj1 (bind_real_stored E v f H)). Qed.

Lemma create_body_Ret (E : engine) (db db' : database) (data : value)
    (s : Student) :
  create_body E db data = Ret (db', s) ->
  exists v fn ln am,
    supplies data "dob" v /\ strptime v = Ret (dob s) /\
    supplies data "first_name" fn /\ bind_text E fn = Ret (first_name s) /\
    supplies data "last_name" ln /\ bind_text E ln = Ret (last_name s) /\
    supplies data "amount_due" am /\ bind_real E am = Ret (amount_due s) /\
    student_id s = next_id db /\ db' = (db ++ [s])%list.
Proof.
  unfold create_body, commit_insert, supplies, bind.
  destruct (getitem data "dob") as [v|] eqn:H1; [|discriminate].
  destruct (strptime v) as [d|] eqn:H2; [|discriminate].
  destruct (getitem data "first_name") as [fn|] eqn:H3; [|discriminate].
  destruct (getitem data "last_name") as [ln|] eqn:H4; [|discriminate].
  destruct (getitem data "amount_due") as [am|] eqn:H5; [|discriminate].
  destruct (bind_text E fn) as [fn'|] eqn:H6; [|discriminate].
  destruct (bind_text E ln) as [ln'|] eqn:H7; [|discriminate].
  destruct (bind_real E am) as [am'|] eqn:H8; [|discriminate].
  destruct (fits_int64 (next_id db)) eqn:H9; [|discriminate].
  intros [= <- <-]. exists v, fn, ln, am.
  rewrite student_id_mkStudent by assumption.
  repeat split; assumption || reflexivity.
Qed.

(** Whatever the outcome, [create_student] either returns the table it was
    given, with a status other than 201, or appends the committed row. *)
Lemma create_student_cases (E : engine) (db : database) (data : value) :
  (fst (create_student E db data) = db /\
   status (snd (create_student E db data)) <> 201) \/
  (exists s, invalid_input data = Ret false /\
             create_body E db data = Ret ((db ++ [s])%list, s) /\
             create_student E db data =
               ((db ++ [s])%list,
                mkResponse (MessageStudent "Student created!" (to_dict s)) 201)).
Proof.
  unfold create_student.
  destruct (invalid_input data) as [[|]|e]; simpl.
  - left. split; [reflexivity | discriminate].
  - destruct (create_body E db data) as [[db' s]|e] eqn:Hb.
    + right. exists s.
      destruct (create_body_Ret _ _ _ _ _ Hb)
        as (v & fn & ln & am & _ & _ & _ & _ & _ & _ & _ & _ & _ & ->).
      auto.
    + left. destruct e; simpl; split; auto; discriminate.
  - left. split; [reflexivity | discriminate].
Qed.

Lemma le_fold_max (l : list Z) (j i : Z) :
  In i (j :: l) -> i <= fold_right Z.max j l.
Proof.
  induction l as [|k l IH]; simpl.
  - intros [->|[]]. lia.
  - intros [->|[->|Hin]].
    + specialize (IH (or_introl eq_refl)). lia.
    + lia.
    + specialize (IH (or_intror Hin)). lia.
Qed.

Lemma ids_below_next (db : database) (i : Z) :
  In i (map student_id db) -> i < next_id db.
Proof.
  unfold next_id. destruct (map student_id db) as [|j l]; [simpl; tauto|].
  intros H. apply le_fold_max in H. lia.
Qed.

Lemma next_id_fresh (db : database) : ~ In (next_id db) (map student_id db).
Proof.
  intros H. apply ids_below_next in H. lia.
Qed.

Lemma filter_ids_NoDup (p : Student -> bool) (db : database) :
  primary_key db -> primary_key (filter p db).
Proof.
  unfold primary_key. induction db as [|r db IH]; simpl; [auto|].
  intros H. inversion H as [|? ? Hnotin Hnd]; subst.
  destruct (p r); simpl; [|auto].
  constructor; [|auto].
  intros Hin. apply Hnotin. apply in_map_iff in Hin as (x & Hx & Hf).
  apply filter_In in Hf as [Hf _]. rewrite <- Hx. now apply in_map.
Qed.

(** Every row of the table a request leaves is a row already there, or
    holds a date and an amount that either were in a row already there or
    went through [strptime] and the FLOAT binding. *)
Lemma step_rows (E : engine) (db : database) (r : request) (s' : Student) :
  In s' (fst (step E db r)) ->
  row_ok s' \/
  (exists s, In s db /\
             (dob s' = dob s \/ valid_date (dob s') = true) /\
             (amount_due s' = amount_due s \/
              (PrimFloat.is_nan (amount_due s') = false /\
               is_neg_zero (amount_due s') = false))).
Proof.
  assert (Hold : In s' db -> exists s, In s db /\
             (dob s' = dob s \/ valid_date (dob s') = true) /\
             (amount_due s' = amount_due s \/
              (PrimFloat.is_nan (amount_due s') = false /\
               is_neg_zero (amount_due s') = false))).
  { intros H. exists s'. auto. }
  destruct r as [data| |id|id data|id]; simpl.
  - destruct (create_student_cases E db data) as [[-> _]|(s & _ & Hb & ->)]; [auto|].
    simpl. intros Hin. apply in_app_or in Hin as [Hin|[<-|[]]]; [auto|].
    left. destruct (create_body_Ret _ _ _ _ _ Hb)
      as (v & fn & ln & am & _ & Hd & _ & _ & _ & _ & _ & Ham & _).
    split; [exact (strptime_valid _ _ Hd) | exact (bind_real_stored _ _ _ Ham)].
  - auto.
  - auto.
  - destruct (query_get db id) as [s|] eqn:Hget;
      [|destruct (update_student_absent E db id data Hget) as [-> | ->]; auto].
    destruct (update_student_cases E db id data s Hget)
      as [[-> _]|(db' & s1 & Hb & _ & ->)]; [auto|].
    simpl. destruct (update_body_Ret _ _ _ _ _ _ Hb)
      as (fn & ln & d & am & _ & _ & Hd & _ & Hflush & ->).
    destruct (flush_row_Ret _ _ _ _ Hflush) as (_ & _ & _ & Hdob & Ham).
    simpl in Hdob, Ham.
    unfold replace_row. intros Hin. apply in_map_iff in Hin as (x & Hx & Hin).
    destruct (student_id x =? student_id s1); [|subst; auto].
    subst s'. right. exists s.
    split; [exact (proj2 (query_get_Some _ _ _ Hget))|]. split.
    + destruct d as [d0|]; [|left; exact Hdob].
      right. rewrite Hdob. simpl.
      destruct (assign_if_present_Ret _ _ _ _ Hd)
        as [[Hn _]|(v & a & [= <-] & _ & _ & Hv)]; [discriminate|].
      exact (strptime_valid _ _ Hv).
    + destruct am as [v|]; simpl in Ham; [|left; congruence].
      right. exact (bind_real_stored _ _ _ Ham).
  - destruct (query_get db id) as [s|] eqn:Hget;
      [|destruct (delete_student_absent db id Hget) as [-> | ->]; auto].
    unfold delete_student. rewrite (lookup_found _ _ _ Hget).
    simpl. unfold commit_delete. intros Hin. apply filter_In in Hin as [Hin _]. auto.
Qed.

Lemma step_row_ok (E : engine) (db : database) (r : request) :
  Forall row_ok db -> Forall row_ok (fst (step E db r)).
Proof.
  rewrite !Forall_forall. intros H s' Hin.
  destruct (step_rows E db r s' Hin) as [Hnew|(s & Hs & Hd & Ha)]; [exact Hnew|].
  destruct (H s Hs) as (H1 & H2 & H3). split.
  - destruct Hd as [->|]; auto.
  - destruct Ha as [->|]; auto.
Qed.

Lemma step_dates_valid (E : engine) (db : database) (r : request) :
  Forall (fun s => valid_date (dob s) = true) db ->
  Forall (fun s => valid_date (dob s) = true) (fst (step E db r)).
Proof.
  rewrite !Forall_forall. intros H s' Hin.
  destruct (step_rows E db r s' Hin) as [[Hnew _]|(s & Hs & Hd & _)]; [exact Hnew|].
  destruct Hd as [->|]; auto.
Qed.

(** ** Dict payloads *)

Lemma supplies_dict (data : value) (k : string) (v : value) :
  supplies data k v -> exists d, data = VDict d /\ lookup k d = Some v.
Proof.
  unfold supplies. destruct data; simpl; try discriminate.
  destruct (lookup k d) as [x|] eqn:Hl; [|discriminate].
  intros [= <-]. eauto.
Qed.

Lemma assign_dict (k : string) (d : list (string * value)) :
  assign_if_present k (VDict d) Ret = Ret (lookup k d).
Proof.
  unfold assign_if_present. simpl. unfold has_key.
  destruct (lookup k d); reflexivity.
Qed.

Lemma lookup_truthy (k : string) (d : list (string * value)) (v : value) :
  lookup k d = Some v -> truthy (VDict d) = true.
Proof. destruct d; [discriminate | reflexivity]. Qed.

Lemma invalid_input_dict (d : list (string * value)) :
  exists b, invalid_input (VDict d) = Ret b.
Proof.
  unfold invalid_input, por, not_in. simpl.
  destruct (match d with [] => false | _ => true end); simpl; [|eauto].
  destruct (has_key "first_name" d); simpl; [|eauto].
  destruct (has_key "last_name" d); simpl; [|eauto].
  destruct (has_key "dob" d); simpl; eauto.
Qed.

Lemma unparsed_raises (ds : string) :
  (forall d, strptime_str ds <> Ret d) -> strptime_str ds = Raise ValueError.
Proof.
  intros H. destruct (strptime_str ds) as [d|e] eqn:Hs.
  - destruct (H d eq_refl).
  - now rewrite (strptime_str_error _ _ Hs).
Qed.

(** ** Dates that do not parse (C3) *)

(** C3: when the payload supplies a dob string that does not parse as a
    date, [create_student] (once the four fields are there) and
    [update_student] (on an existing student) answer InvalidDateFormat
    (400), and in every case the table is returned with all its rows as they
    were; and whatever the request, a table whose rows hold calendar dates
    keeps holding calendar dates.  A calendar date in zero-padded
    YYYY-MM-DD form does parse, to itself. *)
Theorem bad_dob_rejected (E : engine) (db : database) (data : value)
    (ds : string) :
  supplies data "dob" (VStr ds) ->
  (forall d, strptime_str ds <> Ret d) ->
  status InvalidDateFormat = 400 /\
  (invalid_input data = Ret false ->
   create_student E db data = (db, InvalidDateFormat)) /\
  fst (create_student E db data) = db /\
  status (snd (create_student E db data)) = 400 /\
  (forall id s, query_get db id = Some s ->
                update_student E db id data = (db, InvalidDateFormat)) /\
  (forall id, fst (update_student E db id data) = db) /\
  (forall r, Forall (fun s => valid_date (dob s) = true) db ->
             Forall (fun s => valid_date (dob s) = true) (fst (step E db r))) /\
  (forall d, valid_date d = true -> strptime (VStr (isoformat d)) = Ret d).
Proof.
  intros Hs Hbad. pose proof (unparsed_raises ds Hbad) as Hraise.
  destruct (supplies_dict _ _ _ Hs) as (d & -> & Hl).
  assert (Hc : create_body E db (VDict d) = Raise ValueError).
  { unfold create_body, bind. simpl. rewrite Hl. simpl. now rewrite Hraise. }
  assert (Hu : forall s, update_body E db s (VDict d) = Raise ValueError).
  { intros s. unfold update_body. rewrite !assign_dict.
    unfold assign_if_present, bind. simpl. unfold has_key. rewrite Hl. simpl.
    now rewrite Hraise. }
  assert (Hupd : forall id s, query_get db id = Some s ->
            update_student E db id (VDict d) = (db, InvalidDateFormat)).
  { intros id s Hget. unfold update_student.
    rewrite (lookup_found _ _ _ Hget), (lookup_truthy _ _ _ Hl), Hu. reflexivity. }
  split; [reflexivity|].
  split; [intros Hv; unfold create_student; now rewrite Hv, Hc|].
  assert (Hcr : fst (create_student E db (VDict d)) = db /\
                status (snd (create_student E db (VDict d))) = 400).
  { unfold create_student. destruct (invalid_input_dict d) as [[|] ->].
    - auto.
    - rewrite Hc. auto. }
  destruct Hcr as [Hc1 Hc2].
  repeat split; auto.
  - intros id. destruct (query_get db id) as [s|] eqn:Hget.
    + now rewrite (Hupd id s Hget).
    + destruct (update_student_absent E db id (VDict d) Hget) as [-> | ->];
        reflexivity.
  - intros r. apply step_dates_valid.
  - intros d0. apply strptime_isoformat.
Qed.

(** The date of the spec's own sample, on create and on update. *)
Lemma bad_dob_rejected_witness :
  let data := VDict [ ("first_name", VStr "Ada"); ("last_name", VStr "Lovelace");
                      ("dob", VStr "13-99-9999"); ("amount_due", VFloat 10.5%float) ] in
  supplies data "dob" (VStr "13-99-9999") /\
  (forall d, strptime_str "13-99-9999" <> Ret d) /\
  create_student strict_engine [ada] data = ([ada], InvalidDateFormat) /\
  update_student strict_engine [ada] 1 data = ([ada], InvalidDateFormat).
Proof.
  intros data.
  assert (H1 : supplies data "dob" (VStr "13-99-9999")) by reflexivity.
  assert (H2 : forall d, strptime_str "13-99-9999" <> Ret d)
    by (intros d; vm_compute; discriminate).
  destruct (bad_dob_rejected strict_engine [ada] data "13-99-9999" H1 H2)
    as (_ & Hc & _ & _ & Hu & _).
  split; [exact H1|]. split; [exact H2|]. split.
  - apply Hc. reflexivity.
  - apply (Hu 1 ada). reflexivity.
Defined.

(** ** Create: the validation of the body (C2) *)

Lemma invalid_input_dict_eq (d : list (string * value)) :
  invalid_input (VDict d)
  = Ret (negb (truthy (VDict d))
         || negb (has_key "first_name" d) || negb (has_key "last_name" d)
         || negb (has_key "dob" d) || negb (has_key "amount_due" d)).
Proof.
  unfold invalid_input, por, not_in. simpl.
  destruct (match d with [] => false | _ => true end); simpl; [|reflexivity].
  destruct (has_key "first_name" d); simpl; [|reflexivity].
  destruct (has_key "last_name" d); simpl; [|reflexivity].
  destruct (has_key "dob" d); simpl; reflexivity.
Qed.

Lemma has_key_true (k : string) (d : list (string * value)) :
  has_key k d = true <-> exists v, lookup k d = Some v.
Proof.
  unfold has_key. destruct (lookup k d) as [v|].
  - split; eauto.
  - split; [discriminate | intros [v H]; discriminate].
Qed.

Lemma has_key_false (k : string) (d : list (string * value)) :
  has_key k d = false <-> lookup k d = None.
Proof.
  unfold has_key. destruct (lookup k d) as [v|]; split; congruence.
Qed.

Lemma all_required (d : list (string * value)) :
  (forall k, In k required_fields -> exists v, lookup k d = Some v) <->
  has_key "first_name" d = true /\ has_key "last_name" d = true /\
  has_key "dob" d = true /\ has_key "amount_due" d = true.
Proof.
  rewrite !has_key_true. unfold required_fields. simpl. split.
  - intros H. repeat split; apply H; tauto.
  - intros (H1 & H2 & H3 & H4) k [<-|[<-|[<-|[<-|[]]]]]; assumption.
Qed.

Lemma some_required_missing (d : list (string * value)) :
  (exists k, In k required_fields /\ lookup k d = None) <->
  ~ (forall k, In k required_fields -> exists v, lookup k d = Some v).
Proof.
  rewrite all_required. split.
  - intros (k & Hin & Hnone) (H1 & H2 & H3 & H4).
    apply has_key_false in Hnone. unfold required_fields in Hin. simpl in Hin.
    destruct Hin as [<-|[<-|[<-|[<-|[]]]]]; congruence.
  - intros H.
    destruct (has_key "first_name" d) eqn:H1;
      [|exists "first_name"; rewrite <- has_key_false; simpl; auto].
    destruct (has_key "last_name" d) eqn:H2;
      [|exists "last_name"; rewrite <- has_key_false; simpl; auto].
    destruct (has_key "dob" d) eqn:H3;
      [|exists "dob"; rewrite <- has_key_false; simpl; auto].
    destruct (has_key "amount_due" d) eqn:H4;
      [|exists "amount_due"; rewrite <- has_key_false; simpl; auto 6].
    exfalso. auto.
Qed.

Lemma passes_validation (d : list (string * value)) :
  invalid_input (VDict d) = Ret false <->
  (forall k, In k required_fields -> exists v, lookup k d = Some v).
Proof.
  rewrite invalid_input_dict_eq, all_required. split.
  - intros [= H].
    repeat (apply orb_false_elim in H as [H ?]).
    repeat match goal with
           | Hn : negb _ = false |- _ => apply negb_false_iff in Hn
           end.
    auto.
  - intros (H1 & H2 & H3 & H4). rewrite H1, H2, H3, H4.
    assert (Ht : truthy (VDict d) = true).
    { apply has_key_true in H1 as [v Hv]. exact (lookup_truthy _ _ _ Hv). }
    rewrite Ht. reflexivity.
Qed.

(** C2, as the code has it: [create_student] answers MissingField (400),
    leaving the table alone, for every falsy body (absent, empty) and, for a
    JSON object, exactly when one of the four keys first_name, last_name,
    dob, amount_due is absent; an object passes the validation exactly when
    the four keys are present, whatever their values, null included. *)
Theorem create_validation (E : engine) (db : database)
    (d : list (string * value)) :
  status MissingField = 400 /\
  (forall data, truthy data = false ->
                create_student E db data = (db, MissingField)) /\
  create_student E db (VDict []) = (db, MissingField) /\
  (invalid_input (VDict d) = Ret false <->
   forall k, In k required_fields -> exists v, lookup k d = Some v) /\
  (create_student E db (VDict d) = (db, MissingField) <->
   exists k, In k required_fields /\ lookup k d = None).
Proof.
  split; [reflexivity|].
  split; [intros data Hf; unfold create_student, invalid_input; now rewrite Hf|].
  split; [reflexivity|].
  split; [apply passes_validation|].
  rewrite some_required_missing, <- passes_validation.
  unfold create_student.
  destruct (invalid_input_dict d) as [[|] Hv]; rewrite Hv.
  - split; [discriminate | reflexivity].
  - split; [|intros H; now destruct H].
    destruct (create_body E db (VDict d)) as [[db' s]|[]]; discriminate.
Qed.

(** C2 as stated fails: a body whose first_name is null passes the
    validation, and the request ends in a 500 of the store, not in
    MissingField. *)
Lemma create_validation_admits_null :
  let data := VDict [ ("first_name", VNone); ("last_name", VStr "Lovelace");
                      ("dob", VStr "1815-12-10");
                      ("amount_due", VFloat 10.5%float) ] in
  invalid_input data = Ret false /\
  supplies data "first_name" VNone /\
  forall (E : engine) (db : database),
    create_student E db data
    = (db, mkResponse (MessageExn "Error creating student: " SQLAlchemyError) 500)
    /\ snd (create_student E db data) <> MissingField.
Proof.
  intros data. split; [reflexivity|]. split; [reflexivity|].
  intros E db. split; [reflexivity | discriminate].
Qed.

(** ** Upload: the extension of a filename *)

Lemma dotless_cons (c : ascii) (s : string) :
  dotless (String c s) <-> c <> "."%char /\ dotless s.
Proof.
  unfold dotless. simpl. split.
  - intros H. split; [intros ->; apply H; auto | intros Hin; apply H; auto].
  - intros [Hc Hs] [Heq|Hin]; [congruence | contradiction].
Qed.

Lemma split_last_None (s : string) :
  split_last "." s = None <-> dotless s.
Proof.
  induction s as [|c s IH]; simpl.
  - split; [intros _ [] | reflexivity].
  - rewrite dotless_cons. destruct (split_last "." s) as [[h t]|].
    + split; [discriminate|]. intros [_ Hs]. apply IH in Hs. discriminate.
    + destruct (Ascii.eqb c ".") eqn:Hc.
      * apply Ascii.eqb_eq in Hc. split; [discriminate | intros [Hn _]; contradiction].
      * apply Ascii.eqb_neq in Hc.
        split; [intros _; split; [assumption | now apply IH] | reflexivity].
Qed.

Lemma split_last_Some (s h t : string) :
  split_last "." s = Some (h, t) -> s = h ++ "." ++ t /\ dotless t.
Proof.
  revert h. induction s as [|c s IH]; simpl; intros h; [discriminate|].
  destruct (split_last "." s) as [[h' t']|] eqn:Hs.
  - intros [= <- <-]. destruct (IH h' eq_refl) as [-> Ht]. auto.
  - destruct (Ascii.eqb c ".") eqn:Hc; [|discriminate].
    apply Ascii.eqb_eq in Hc. intros [= <- <-]. subst c.
    split; [reflexivity | now apply split_last_None].
Qed.

Lemma split_last_app (h t : string) :
  dotless t -> split_last "." (h ++ "." ++ t) = Some (h, t).
Proof.
  intros Ht. induction h as [|c h IH]; simpl.
  - apply split_last_None in Ht. now rewrite Ht.
  - simpl in IH. now rewrite IH.
Qed.

Lemma is_infix_dot (s : string) : is_infix "." s = true <-> ~ dotless s.
Proof.
  induction s as [|c s IH].
  - simpl. split; [discriminate | intros H; destruct H; intros []].
  - rewrite dotless_cons. cbn [is_infix String.prefix].
    destruct (Ascii.ascii_dec "." c) as [<-|Hne].
    + split; [intros _ [Hn _]; now apply Hn | destruct s; reflexivity].
    + cbn [orb]. rewrite IH. split.
      * intros Hs [_ Hd]. contradiction.
      * intros H Hd. apply H. split; [congruence | assumption].
Qed.

Lemma in_set_In (x : string) (l : list string) : in_set x l = true <-> In x l.
Proof.
  unfold in_set. rewrite existsb_exists. split.
  - intros (y & Hin & Heq). apply String.eqb_eq in Heq. now subst.
  - intros Hin. exists x. split; [assumption | apply String.eqb_refl].
Qed.

Lemma extension_unique (name e1 e2 : string) :
  extension_of name e1 -> extension_of name e2 -> e1 = e2.
Proof.
  intros (h1 & -> & Hd1) (h2 & Heq & Hd2).
  pose proof (split_last_app h1 e1 Hd1) as H1.
  rewrite Heq in H1. rewrite (split_last_app h2 e2 Hd2) in H1. congruence.
Qed.

Lemma dotless_no_extension (name : string) :
  dotless name <-> ~ exists ext, extension_of name ext.
Proof.
  rewrite <- split_last_None. split.
  - intros Hn (ext & h & -> & Hd). rewrite (split_last_app h ext Hd) in Hn.
    discriminate.
  - intros H. destruct (split_last "." name) as [[h t]|] eqn:Hs; [|reflexivity].
    exfalso. apply H. exists t, h. now apply split_last_Some.
Qed.

(** [allowed_file] holds exactly of the names whose extension, lowered, is
    one of the four. *)
Lemma allowed_file_spec (name : string) :
  allowed_file name = true <->
  exists ext, extension_of name ext /\ In (lower ext) ALLOWED_EXTENSIONS.
Proof.
  unfold allowed_file, rsplit1. split.
  - intros H. apply andb_prop in H as [_ H].
    destruct (split_last "." name) as [[h t]|] eqn:Hs; simpl in H; [|discriminate].
    exists t. split; [exists h; now apply split_last_Some | now apply in_set_In].
  - intros (ext & (h & -> & Hd) & Hin).
    rewrite (split_last_app h ext Hd). simpl nth_error.
    apply andb_true_intro. split; [|now apply in_set_In].
    apply is_infix_dot. rewrite <- split_last_None, (split_last_app h ext Hd).
    discriminate.
Qed.

Lemma allowed_file_false (name : string) :
  allowed_file name = false <->
  dotless name \/
  exists ext, extension_of name ext /\ ~ In (lower ext) ALLOWED_EXTENSIONS.
Proof.
  rewrite <- not_true_iff_false, allowed_file_spec. split.
  - intros H. destruct (split_last "." name) as [[h t]|] eqn:Hs.
    + right. exists t. split; [exists h; now apply split_last_Some|].
      intros Hin. apply H. exists t. split; [|assumption].
      exists h. now apply split_last_Some.
    + left. now apply split_last_None.
  - intros [Hd|(ext & Hext & Hn)] (e & He & Hin).
    + apply dotless_no_extension in Hd. apply Hd. eauto.
    + rewrite (extension_unique _ _ _ He Hext) in Hin. contradiction.
Qed.

(** ** Upload: rejections (C6) *)

(** C6: [upload_file] answers NoFilePart (400) when the request has no
    [file] field, NoFilename (400) when the field is there with an empty
    filename, and otherwise InvalidFileType (400) exactly when the filename
    has no ['.'] at all or its extension (what follows the last ['.']),
    lowered, is none of png, jpg, jpeg, gif; [photo.png] is accepted and
    [photo.exe] is rejected. *)
Theorem upload_rejections (fs : filesystem) (files : request_files) :
  status NoFilePart = 400 /\ status NoFilename = 400 /\
  status InvalidFileType = 400 /\
  (files_get "file" files = None -> upload_file fs files = (fs, NoFilePart)) /\
  (forall f, files_get "file" files = Some f -> filename f = "" ->
             upload_file fs files = (fs, NoFilename)) /\
  (forall f, files_get "file" files = Some f -> filename f <> "" ->
             (snd (upload_file fs files) = InvalidFileType <->
              dotless (filename f) \/
              exists ext, extension_of (filename f) ext /\
                          ~ In (lower ext) ALLOWED_EXTENSIONS)) /\
  (forall bytes,
     snd (upload_file fs [("file", mkFile "photo.png" bytes)]) = Uploaded /\
     upload_file fs [("file", mkFile "photo.exe" bytes)] = (fs, InvalidFileType)).
Proof.
  unfold upload_file. repeat split.
  - intros ->. reflexivity.
  - intros f -> ->. reflexivity.
  - rewrite H. apply String.eqb_neq in H0. unfold file_truthy. rewrite H0. simpl.
    rewrite <- allowed_file_false.
    destruct (allowed_file (filename f)); simpl; [discriminate | reflexivity].
  - rewrite H. apply String.eqb_neq in H0. unfold file_truthy. rewrite H0. simpl.
    rewrite <- allowed_file_false. intros ->. reflexivity.
Qed.

(** ** Upload: where the bytes go (C9) *)

(** What an accepted upload does: the bytes are written at
    [os.path.join('uploads', filename)] and the answer is 200. *)
Lemma upload_accepted (fs : filesystem) (files : request_files) (f : FileStorage) :
  files_get "file" files = Some f -> filename f <> "" ->
  allowed_file (filename f) = true ->
  upload_file fs files
  = ((path_join "uploads" (filename f), stream f) :: fs, Uploaded)
  /\ read_file (fst (upload_file fs files)) (path_join "uploads" (filename f))
     = Some (stream f)
  /\ status (snd (upload_file fs files)) = 200.
Proof.
  intros Hf Hne Hal.
  assert (Heq : upload_file fs files
                = ((path_join "uploads" (filename f), stream f) :: fs, Uploaded)).
  { unfold upload_file, file_truthy, save. rewrite Hf, Hal.
    apply String.eqb_neq in Hne. rewrite Hne. reflexivity. }
  rewrite Heq. simpl. rewrite String.eqb_refl. auto.
Qed.

(** C9, at the failing input: an upload named [/tmp/photo.png] is accepted
    (file field present, filename non-empty, extension png) and answered
    200, and its bytes are written at [/tmp/photo.png], the join of
    [uploads] with an absolute name being that name: the path written does
    not lie under [uploads]. *)
Theorem upload_leaves_directory (fs : filesystem) (bytes : string) :
  let file := mkFile "/tmp/photo.png" bytes in
  allowed_file (filename file) = true /\
  upload_file fs [("file", file)] = (("/tmp/photo.png", bytes) :: fs, Uploaded) /\
  status Uploaded = 200 /\
  path_join "uploads" (filename file) = "/tmp/photo.png" /\
  under "uploads" (path_join "uploads" (filename file)) = false.
Proof. repeat split. Qed.

(** ** Listing (C5) *)

Lemma supplies_functional (data : value) (k : string) (v w : value) :
  supplies data k v -> supplies data k w -> v = w.
Proof. unfold supplies. congruence. Qed.

Lemma bind_real_float (E : engine) (f g : float) :
  bind_real E (VFloat f) = Ret g -> g = stored_real f.
Proof.
  unfold bind_real, bind. destruct (PrimFloat.is_nan f); congruence.
Qed.

Lemma stored_real_same (f : float) :
  is_neg_zero f = false -> stored_real f = f.
Proof. intros H. unfold stored_real. now rewrite H. Qed.

(** A creation answered 201 appends a row whose serialization gives back
    the supplied fields. *)
Lemma create_student_201 (E : engine) (db : database) (data : value)
    (x : fields) :
  supplies_fields data x ->
  status (snd (create_student E db data)) = 201 ->
  exists s,
    create_student E db data
    = ((db ++ [s])%list,
       mkResponse (MessageStudent "Student created!" (to_dict s)) 201)
    /\ round_trips (to_dict s) x.
Proof.
  intros (Hfn & Hln & Hdob & Ham) Hst.
  destruct (create_student_cases E db data) as [[_ Hno]|(s & _ & Hb & Heq)];
    [contradiction|].
  exists s. split; [exact Heq|].
  destruct (create_body_Ret _ _ _ _ _ Hb)
    as (v & fn & ln & am & Hv & Hd & Hfn' & Hbfn & Hln' & Hbln & Ham' & Hbam & _).
  rewrite (supplies_functional _ _ _ _ Hv Hdob) in Hd.
  rewrite (supplies_functional _ _ _ _ Hfn' Hfn) in Hbfn.
  rewrite (supplies_functional _ _ _ _ Hln' Hln) in Hbln.
  rewrite (supplies_functional _ _ _ _ Ham' Ham) in Hbam.
  simpl in Hd, Hbfn, Hbln. injection Hbfn as Hbfn. injection Hbln as Hbln.
  apply bind_real_float in Hbam.
  exists (student_id s), (dob s). split; [exact Hd|]. split; [|split].
  - unfold to_dict. now rewrite <- Hbfn, <- Hbln, Hbam.
  - now apply isoformat_strptime_padded.
  - apply stored_real_same.
Qed.

(** C5, as the code has it: [get_students] answers 200 with one entry per
    stored row (none for the empty table); after N creations answered 201,
    whose bodies supply text names, a dob string and a float amount, the
    listing holds the rows that were there followed by exactly N entries,
    each giving back the first_name and last_name supplied, the amount_due
    as the FLOAT column stores it (the amount supplied, but [0.0] for the
    negative zero) and the dob in the ISO form of the date parsed, which is
    the string supplied when that string was zero-padded. *)
Theorem list_after_creates (E : engine) (db : database) (reqs : list value)
    (xs : list fields) :
  Forall2 supplies_fields reqs xs ->
  Forall (fun r => status r = 201) (snd (create_many E db reqs)) ->
  get_students [] = mkResponse (StudentsBody []) 200 /\
  (forall db0, get_students db0 = mkResponse (StudentsBody (map to_dict db0)) 200) /\
  exists entries,
    get_students (fst (create_many E db reqs))
    = mkResponse (StudentsBody (map to_dict db ++ entries)%list) 200
    /\ List.length entries = List.length reqs
    /\ Forall2 round_trips entries xs.
Proof.
  intros Hsup Hok. split; [reflexivity|]. split; [reflexivity|].
  revert db Hok. induction Hsup as [|data x reqs xs Hx _ IH]; intros db Hok.
  - exists []. simpl. rewrite app_nil_r. auto.
  - simpl in Hok |- *.
    destruct (create_student E db data) as [db1 r] eqn:Hc.
    destruct (create_many E db1 reqs) as [db2 rs] eqn:Hm.
    simpl in Hok. inversion Hok as [|? ? Hr Hrs]; subst.
    destruct (create_student_201 E db data x Hx) as (s & Heq & Hrt).
    { rewrite Hc. exact Hr. }
    rewrite Hc in Heq. injection Heq as -> _.
    specialize (IH (db ++ [s])%list). rewrite Hm in IH.
    destruct (IH Hrs) as (entries & Hget & Hlen & Hall).
    exists (to_dict s :: entries). simpl fst in *. split; [|split].
    + rewrite Hget, map_app, <- app_assoc. reflexivity.
    + simpl. now rewrite Hlen.
    + constructor; assumption.
Qed.

Lemma body_of_supplies (x : fields) : supplies_fields (body_of x) x.
Proof. repeat split. Qed.

(** Two creations on the empty table, the second with an unpadded date. *)
Lemma list_after_creates_witness :
  Forall2 supplies_fields [body_of ada_fields; body_of grace_fields]
          [ada_fields; grace_fields] /\
  Forall (fun r => status r = 201)
         (snd (create_many strict_engine []
                 [body_of ada_fields; body_of grace_fields])) /\
  exists entries,
    get_students (fst (create_many strict_engine []
                         [body_of ada_fields; body_of grace_fields]))
    = mkResponse (StudentsBody entries) 200
    /\ List.length entries = 2%nat
    /\ Forall2 round_trips entries [ada_fields; grace_fields].
Proof.
  assert (H1 : Forall2 supplies_fields [body_of ada_fields; body_of grace_fields]
                 [ada_fields; grace_fields])
    by (repeat constructor).
  assert (H2 : Forall (fun r => status r = 201)
                 (snd (create_many strict_engine []
                         [body_of ada_fields; body_of grace_fields])))
    by (repeat constructor).
  split; [exact H1|]. split; [exact H2|].
  destruct (list_after_creates strict_engine [] _ _ H1 H2)
    as (_ & _ & entries & Hget & Hlen & Hall).
  exists entries. auto.
Defined.

(** C5 as stated fails: a student created with the dob ["1906-12-9"] (201)
    is listed with the dob ["1906-12-09"], not the string supplied. *)
Lemma list_reformats_dob :
  supplies_fields (body_of grace_fields) grace_fields /\
  forall E : engine,
    status (snd (create_student E [] (body_of grace_fields))) = 201 /\
    get_students (fst (create_student E [] (body_of grace_fields)))
    = mkResponse
        (StudentsBody
           [VDict [ ("student_id", VInt 1); ("first_name", VStr "Grace");
                    ("last_name", VStr "Hopper"); ("dob", VStr "1906-12-09");
                    ("amount_due", VFloat 0%float) ]]) 200 /\
    "1906-12-09" <> f_dob grace_fields.
Proof.
  split; [apply body_of_supplies|].
  intros E. split; [reflexivity|]. split; [reflexivity | discriminate].
Qed.

(** ** The invariants of the table (C7) *)

Lemma query_get_app (db : database) (s1 : Student) (id : Z) (s : Student) :
  query_get db id = Some s -> query_get (db ++ [s1])%list id = Some s.
Proof.
  induction db as [|r db IH]; simpl; [discriminate|].
  destruct (student_id r =? id); auto.
Qed.

Lemma query_get_delete_other (db : database) (s0 : Student) (id : Z) :
  id <> student_id s0 ->
  query_get (commit_delete db s0) id = query_get db id.
Proof.
  intros Hne. unfold commit_delete.
  induction db as [|r db IH]; simpl; [reflexivity|].
  destruct (student_id r =? student_id s0) eqn:Hr; simpl.
  - apply Z.eqb_eq in Hr.
    destruct (student_id r =? id) eqn:Hi; [apply Z.eqb_eq in Hi; congruence|].
    exact IH.
  - destruct (student_id r =? id); [reflexivity | exact IH].
Qed.

Lemma NoDup_snoc (l : list Z) (a : Z) :
  NoDup l -> ~ In a l -> NoDup (l ++ [a])%list.
Proof.
  induction l as [|b l IH]; simpl; intros Hnd Hnotin.
  - constructor; [simpl; tauto | constructor].
  - inversion Hnd as [|? ? Hb Hl]; subst. constructor.
    + intros Hin. apply in_app_or in Hin as [Hin|[->|[]]]; [contradiction|].
      apply Hnotin. now left.
    + apply IH; [assumption | tauto].
Qed.

Lemma step_primary_key (E : engine) (db : database) (r : request) :
  primary_key db -> primary_key (fst (step E db r)).
Proof.
  intros Hpk. destruct r as [data| |id|id data|id]; simpl; auto.
  - destruct (create_student_cases E db data) as [[-> _]|(s & _ & Hb & ->)]; [auto|].
    simpl. unfold primary_key. rewrite map_app. simpl.
    destruct (create_body_Ret _ _ _ _ _ Hb)
      as (v & fn & ln & am & _ & _ & _ & _ & _ & _ & _ & _ & Hid & _).
    rewrite Hid. apply NoDup_snoc; [exact Hpk | apply next_id_fresh].
  - destruct (query_get db id) as [s|] eqn:Hget.
    + destruct (update_student_cases E db id data s Hget)
        as [[-> _]|(db' & s' & Hb & _ & ->)]; [auto|].
      simpl. destruct (update_body_Ret _ _ _ _ _ _ Hb)
        as (fn & ln & d & am & _ & _ & _ & _ & _ & ->).
      unfold primary_key. now rewrite replace_row_ids.
    + destruct (update_student_absent E db id data Hget) as [-> | ->]; auto.
  - destruct (query_get db id) as [s|] eqn:Hget;
      [|destruct (delete_student_absent db id Hget) as [-> | ->]; auto].
    unfold delete_student. rewrite (lookup_found _ _ _ Hget).
    simpl. now apply filter_ids_NoDup.
Qed.

Lemma reachable_well_formed (E : engine) (db : database) :
  reachable E db -> well_formed db.
Proof.
  induction 1 as [|db r _ [Hpk Hrows]].
  - split; [constructor | constructor].
  - split; [now apply step_primary_key | now apply step_row_ok].
Qed.

Lemma row_ok_well_typed (s : Student) : row_ok s -> well_typed (to_dict s).
Proof.
  intros (Hd & Ha & _).
  exists (student_id s), (first_name s), (last_name s), (isoformat (dob s)),
    (amount_due s), (dob s).
  repeat split; [now apply strptime_isoformat | assumption].
Qed.

(** A record stays readable under its id, as it is, until a request
    updates or deletes that id. *)
Lemma step_keeps_record (E : engine) (db : database) (r : request) (id : Z)
    (s : Student) :
  query_get db id = Some s ->
  query_get (fst (step E db r)) id = Some s \/
  (exists data s', r = Update id data /\
                   query_get (fst (step E db r)) id = Some s' /\
                   student_id s' = student_id s) \/
  (r = Delete id /\ query_get (fst (step E db r)) id = None).
Proof.
  intros Hget. destruct r as [data| |id'|id' data|id']; simpl; auto.
  - destruct (create_student_cases E db data) as [[-> _]|(s1 & _ & _ & ->)]; [auto|].
    left. simpl. now apply query_get_app.
  - destruct (Z.eq_dec id' id) as [->|Hne].
    + destruct (update_student_cases E db id data s Hget)
        as [[-> _]|(db' & s' & Hb & _ & ->)]; [auto|].
      right. left. exists data, s'. split; [reflexivity|]. simpl.
      destruct (update_body_Ret _ _ _ _ _ _ Hb)
        as (fn & ln & d & am & _ & _ & _ & _ & Hflush & ->).
      destruct (flush_row_Ret _ _ _ _ Hflush) as (Hid & _).
      destruct (query_get_Some _ _ _ Hget) as [Hs _].
      split; [apply (query_get_replaced db id s s' Hget); congruence | exact Hid].
    + left. destruct (query_get db id') as [s0|] eqn:Hget'.
      * destruct (update_student_cases E db id' data s0 Hget')
          as [[-> _]|(db' & s' & Hb & _ & ->)]; [auto|].
        simpl. destruct (update_body_Ret _ _ _ _ _ _ Hb)
          as (fn & ln & d & am & _ & _ & _ & _ & Hflush & ->).
        destruct (flush_row_Ret _ _ _ _ Hflush) as (Hid & _).
        destruct (query_get_Some _ _ _ Hget') as [Hs _].
        rewrite query_get_replaced_other; [exact Hget | congruence].
      * destruct (update_student_absent E db id' data Hget') as [-> | ->]; auto.
  - destruct (Z.eq_dec id' id) as [->|Hne].
    + unfold delete_student. rewrite (lookup_found _ _ _ Hget).
      simpl. right. right. split; [reflexivity|].
      destruct (query_get_Some _ _ _ Hget) as [<- _]. apply query_get_deleted.
    + left. destruct (query_get db id') as [s0|] eqn:Hget';
        [|destruct (delete_student_absent db id' Hget') as [-> | ->]; auto].
      unfold delete_student. rewrite (lookup_found _ _ _ Hget').
      simpl. destruct (query_get_Some _ _ _ Hget') as [Hs _].
      rewrite query_get_delete_other; [exact Hget | congruence].
Qed.

(** C7, as the code has it: on every table the service can reach, no two
    rows share a student_id; every readable record is read under its own
    id and serializes with the five fields present and typed (integer id,
    text names, a dob string that is the ISO form of a calendar date, a
    float amount that is not NaN), the names being any text, the empty
    string included; every request leads to a table with the same
    properties and leaves a record readable under its id, unchanged unless
    the request updates that id (the id then stays) or deletes it. *)
Theorem reachable_invariants (E : engine) (db : database) :
  reachable E db ->
  primary_key db /\
  (forall id s, query_get db id = Some s ->
     student_id s = id /\ well_typed (to_dict s) /\
     get_student db id = mkResponse (StudentBody (to_dict s)) 200) /\
  (forall r, well_formed (fst (step E db r))) /\
  (forall r id s, query_get db id = Some s ->
     query_get (fst (step E db r)) id = Some s \/
     (exists data s', r = Update id data /\
                      query_get (fst (step E db r)) id = Some s' /\
                      student_id s' = student_id s) \/
     (r = Delete id /\ query_get (fst (step E db r)) id = None)).
Proof.
  intros Hreach. destruct (reachable_well_formed E db Hreach) as [Hpk Hrows].
  split; [exact Hpk|]. split; [|split].
  - intros id s Hget. destruct (query_get_Some _ _ _ Hget) as [Hid Hin].
    split; [exact Hid|]. split.
    + apply row_ok_well_typed. rewrite Forall_forall in Hrows. now apply Hrows.
    + now apply get_student_found.
  - intros r. apply (reachable_well_formed E). now constructor.
  - intros r id s. apply step_keeps_record.
Qed.

(** The table after one creation. *)
Lemma reachable_invariants_witness :
  reachable strict_engine (fst (step strict_engine [] (Create (body_of ada_fields))))
  /\ primary_key (fst (step strict_engine [] (Create (body_of ada_fields))))
  /\ well_typed (to_dict ada).
Proof.
  assert (H : reachable strict_engine
                (fst (step strict_engine [] (Create (body_of ada_fields)))))
    by (constructor; constructor).
  split; [exact H|].
  destruct (reachable_invariants strict_engine _ H) as (Hpk & Hread & _).
  split; [exact Hpk|].
  exact (proj1 (proj2 (Hread 1 ada eq_refl))).
Defined.

(** C7 as stated fails: a creation with the empty string as first_name is
    answered 201, and the record is then readable with an empty
    first_name. *)
Lemma empty_name_readable :
  f_first_name nameless_fields = "" /\
  forall E : engine,
    let db := fst (step E [] (Create (body_of nameless_fields))) in
    reachable E db /\
    status (snd (create_student E [] (body_of nameless_fields))) = 201 /\
    get_student db 1
    = mkResponse
        (StudentBody
           (VDict [ ("student_id", VInt 1); ("first_name", VStr "");
                    ("last_name", VStr "Lovelace"); ("dob", VStr "1815-12-10");
                    ("amount_due", VFloat 10.5%float) ])) 200.
Proof.
  split; [reflexivity|].
  intros E db. split; [constructor; constructor|].
  split; reflexivity.
Qed.

(** ** Worked requests *)

Example strptime_padded :
  strptime_str "2001-02-03" = Ret (mkDate 2001 2 3).
Proof. reflexivity. Qed.

Example strptime_unpadded :
  strptime_str "2001-2-3" = Ret (mkDate 2001 2 3).
Proof. reflexivity. Qed.

Example strptime_spec_sample : strptime_str "13-99-9999" = Raise ValueError.
Proof. reflexivity. Qed.

Example strptime_feb30 : strptime_str "2001-02-30" = Raise ValueError.
Proof. reflexivity. Qed.

Example strptime_trailing : strptime_str "2001-02-031" = Raise ValueError.
Proof. reflexivity. Qed.

Example isoformat_sample : isoformat (mkDate 2001 2 3) = "2001-02-03".
Proof. reflexivity. Qed.

Example allowed_photo_png : allowed_file "photo.png" = true.
Proof. reflexivity. Qed.

Example allowed_upper : allowed_file "a.b.JPeG" = true.
Proof. reflexivity. Qed.

Example rejected_photo_exe : allowed_file "photo.exe" = false.
Proof. reflexivity. Qed.

Example rejected_no_dot : allowed_file "png" = false.
Proof. reflexivity. Qed.

Example join_relative : path_join "uploads" "photo.png" = "uploads/photo.png".
Proof. reflexivity. Qed.

Example join_absolute : path_join "uploads" "/tmp/photo.png" = "/tmp/photo.png".
Proof. reflexivity. Qed.

Example create_sample :
  create_student strict_engine [] (body_of ada_fields)
  = ([ada], mkResponse (MessageStudent "Student created!" (to_dict ada)) 201).
Proof. reflexivity. Qed.

Example create_integer_amount :
  fst (create_student strict_engine []
         (VDict [ ("first_name", VStr "Ada"); ("last_name", VStr "Lovelace");
                  ("dob", VStr "1815-12-10"); ("amount_due", VInt 100) ]))
  = [mkStudent 1 "Ada" "Lovelace" (mkDate 1815 12 10) 100%float].
Proof. reflexivity. Qed.

Example create_without_amount :
  create_student strict_engine []
    (VDict [ ("first_name", VStr "Ada"); ("last_name", VStr "Lovelace");
             ("dob", VStr "1815-12-10") ])
  = ([], MissingField).
Proof. reflexivity. Qed.

Example create_unparseable_dob :
  create_student strict_engine []
    (VDict [ ("first_name", VStr "Ada"); ("last_name", VStr "Lovelace");
             ("dob", VStr "13-99-9999"); ("amount_due", VFloat 10.5%float) ])
  = ([], InvalidDateFormat).
Proof. reflexivity. Qed.

Example create_number_body :
  create_student strict_engine [] (VInt 5) = ([], mkResponse (Unhandled TypeError) 500).
Proof. reflexivity. Qed.

Example get_on_empty_store : get_student [] 99999 = NotFound.
Proof. reflexivity. Qed.

Example update_amount_only :
  fst (update_student strict_engine [ada] 1 (VDict [("amount_due", VFloat 0%float)]))
  = [mkStudent 1 "Ada" "Lovelace" (mkDate 1815 12 10) 0%float].
Proof. reflexivity. Qed.

Example update_null_name :
  update_student strict_engine [ada] 1 (VDict [("first_name", VNone)])
  = ([ada], mkResponse (MessageExn "Error updating student: " SQLAlchemyError) 500).
Proof. reflexivity. Qed.

Example update_number_body :
  update_student strict_engine [ada] 1 (VInt 5)
  = ([ada], mkResponse (MessageExn "Error updating student: " TypeError) 500).
Proof. reflexivity. Qed.

Example upload_without_file : upload_file [] [] = ([], NoFilePart).
Proof. reflexivity. Qed.

Example upload_parent_directory :
  fst (upload_file [] [("file", mkFile "../photo.png" "bytes")])
  = [("uploads/../photo.png", "bytes")].
Proof. reflexivity. Qed.

(** * Further properties of the views *)

(** ** Creation *)

Lemma query_get_absent (db : database) (id : Z) :
  ~ In id (map student_id db) -> query_get db id = None.
Proof.
  induction db as [|r db IH]; simpl; [reflexivity|].
  intros H. destruct (student_id r =? id) eqn:Hid.
  - apply Z.eqb_eq in Hid. exfalso. auto.
  - apply IH. tauto.
Qed.

Lemma query_get_app_new (db : database) (s : Student) (id : Z) :
  query_get db id = None ->
  query_get (db ++ [s])%list id = if student_id s =? id then Some s else None.
Proof.
  induction db as [|r db IH]; simpl; [reflexivity|].
  destruct (student_id r =? id); [discriminate | exact IH].
Qed.

Lemma supplies_fields_dict (data : value) (x : fields) :
  supplies_fields data x ->
  exists d, data = VDict d /\
            lookup "first_name" d = Some (VStr (f_first_name x)) /\
            lookup "last_name" d = Some (VStr (f_last_name x)) /\
            lookup "dob" d = Some (VStr (f_dob x)) /\
            lookup "amount_due" d = Some (VFloat (f_amount_due x)).
Proof.
  intros (H1 & H2 & H3 & H4).
  destruct (supplies_dict _ _ _ H1) as (d & -> & L1).
  destruct (supplies_dict _ _ _ H2) as (d2 & [= <-] & L2).
  destruct (supplies_dict _ _ _ H3) as (d3 & [= <-] & L3).
  destruct (supplies_dict _ _ _ H4) as (d4 & [= <-] & L4).
  exists d. auto.
Qed.

Lemma create_typed (E : engine) (db : database) (data : value) (x : fields)
    (d : date) :
  supplies_fields data x ->
  strptime_str (f_dob x) = Ret d ->
  PrimFloat.is_nan (f_amount_due x) = false ->
  fits_int64 (next_id db) = true ->
  create_student E db data
  = ((db ++ [created db x d])%list,
     mkResponse (MessageStudent "Student created!" (to_dict (created db x d))) 201).
Proof.
  intros Hs Hd Hn Hfit.
  destruct (supplies_fields_dict _ _ Hs) as (dd & -> & L1 & L2 & L3 & L4).
  assert (Hv : invalid_input (VDict dd) = Ret false).
  { apply passes_validation. unfold required_fields.
    intros k [<-|[<-|[<-|[<-|[]]]]]; eauto. }
  unfold create_student. rewrite Hv.
  unfold create_body, commit_insert, bind. simpl.
  rewrite L3. simpl. rewrite Hd, L1, L2, L4. simpl.
  unfold bind_real, bind. rewrite Hn, Hfit. reflexivity.
Qed.




(** ** Reading *)

(** X3: for an id that fits a signed 64-bit integer, [get_student]
    answers NotFound (404) exactly when no row of the table carries the id,
    and otherwise 200 with the serialization of a row of the table that
    carries it; for an id that does not fit, no row carries it and the
    lookup raises: the answer is 500. *)
Theorem get_student_found_iff (db : database) (id : Z) :
  (fits_int64 id = true ->
   (get_student db id = NotFound <-> ~ In id (map student_id db)) /\
   (status (get_student db id) = 200 <-> In id (map student_id db))) /\
  (In id (map student_id db) ->
   exists s, In s db /\ student_id s = id /\
             get_student db id = mkResponse (StudentBody (to_dict s)) 200) /\
  (fits_int64 id = false ->
   ~ In id (map student_id db) /\
   get_student db id = mkResponse (Unhandled OverflowError) 500).
Proof.
  destruct (query_get db id) as [s|] eqn:Hget.
  - destruct (query_get_Some _ _ _ Hget) as [Hid Hin].
    assert (Hmem : In id (map student_id db)) by (rewrite <- Hid; now apply in_map).
    rewrite (get_student_found _ _ _ Hget).
    split; [|split].
    + intros _. split; split; auto; try discriminate. intros H; contradiction.
    + intros _. exists s. auto.
    + intros Hf. rewrite (query_get_fits _ _ _ Hget) in Hf. discriminate.
  - pose proof (query_get_None _ _ Hget) as Hno. split; [|split].
    + intros Hf. unfold get_student, Student_query_get. rewrite Hf, Hget.
      split; split; auto; try discriminate. intros H; contradiction.
    + intros H. contradiction.
    + intros Hf. split; [exact Hno|].
      unfold get_student, Student_query_get. now rewrite Hf.
Qed.

(** ** Deletion *)

Lemma delete_table (db : database) (id : Z) :
  fst (delete_student db id)
  = filter (fun r => negb (student_id r =? id)) db.
Proof.
  destruct (query_get db id) as [s|] eqn:Hget.
  - destruct (query_get_Some _ _ _ Hget) as [Hid _].
    unfold delete_student. rewrite (lookup_found _ _ _ Hget). simpl.
    unfold commit_delete. now rewrite Hid.
  - pose proof (query_get_None _ _ Hget) as Hno.
    assert (Hdb : fst (delete_student db id) = db)
      by (destruct (delete_student_absent db id Hget) as [-> | ->]; reflexivity).
    rewrite Hdb. symmetry.
    clear Hget Hdb. induction db as [|r db IH]; simpl in *; [reflexivity|].
    destruct (student_id r =? id) eqn:Hr.
    + apply Z.eqb_eq in Hr. exfalso. auto.
    + simpl. f_equal. apply IH. tauto.
Qed.

Lemma filter_one_out (db : database) (id : Z) :
  primary_key db -> In id (map student_id db) ->
  S (List.length (filter (fun r => negb (student_id r =? id)) db))
  = List.length db.
Proof.
  unfold primary_key. induction db as [|r db IH]; simpl; [tauto|].
  intros Hnd Hin. inversion Hnd as [|? ? Hnotin Hnd']; subst.
  destruct (student_id r =? id) eqn:Hr; simpl.
  - apply Z.eqb_eq in Hr. subst id. f_equal.
    clear IH Hin Hnd Hnd'. induction db as [|q db IH]; simpl in *; [reflexivity|].
    destruct (student_id q =? student_id r) eqn:Hq.
    + apply Z.eqb_eq in Hq. exfalso. auto.
    + simpl. f_equal. apply IH. tauto.
  - f_equal. apply IH; [assumption|].
    destruct Hin as [Heq|Hin]; [|assumption].
    apply Z.eqb_neq in Hr. contradiction.
Qed.

(** X4: [delete_student] removes the rows that carry the id and no other:
    a row is in the table it returns exactly when it was in the table and
    carries another id, the records under the other ids read as before,
    and, the ids being unique, deleting an id that is there shortens the
    table by exactly one row. *)
Theorem delete_removes_exactly (db : database) (id : Z) :
  (forall s, In s (fst (delete_student db id)) <-> In s db /\ student_id s <> id) /\
  (forall id', id' <> id ->
     query_get (fst (delete_student db id)) id' = query_get db id') /\
  (primary_key db -> In id (map student_id db) ->
   S (List.length (fst (delete_student db id))) = List.length db).
Proof.
  rewrite delete_table. split; [|split].
  - intros s. rewrite filter_In, negb_true_iff, Z.eqb_neq. tauto.
  - intros id' Hne. induction db as [|r db IH]; simpl; [reflexivity|].
    destruct (student_id r =? id) eqn:Hr; simpl.
    + apply Z.eqb_eq in Hr.
      destruct (student_id r =? id') eqn:Hr'; [apply Z.eqb_eq in Hr'; congruence|].
      exact IH.
    + destruct (student_id r =? id'); [reflexivity | exact IH].
  - apply filter_one_out.
Qed.

(** ** Updates *)

Lemma replace_row_idem (db : database) (s : Student) :
  replace_row s (replace_row s db) = replace_row s db.
Proof.
  unfold replace_row. rewrite map_map. apply map_ext.
  intros r. destruct (student_id r =? student_id s) eqn:Hr.
  - now rewrite Z.eqb_refl.
  - now rewrite Hr.
Qed.

Lemma flush_text_again (E : engine) (old new : string) (p : option value) :
  flush_text E old p = Ret new -> flush_text E new p = Ret new.
Proof. destruct p; simpl; congruence. Qed.

Lemma flush_real_again (E : engine) (old new : float) (p : option value) :
  flush_real E old p = Ret new -> flush_real E new p = Ret new.
Proof. destruct p; simpl; congruence. Qed.

Lemma flush_row_again (E : engine) (s s' : Student) (p : pending) :
  flush_row E s p = Ret s' -> flush_row E s' p = Ret s'.
Proof.
  intros H. destruct (flush_row_Ret _ _ _ _ H) as (Hid & H1 & H2 & H3 & H4).
  unfold flush_row, bind.
  rewrite (flush_text_again _ _ _ _ H1), (flush_text_again _ _ _ _ H2),
    (flush_real_again _ _ _ _ H4).
  f_equal. apply Student_eq; simpl; auto.
  destruct (p_dob p); simpl in *; congruence.
Qed.

(** X5: when [update_student] answers 200, the record in its answer is the
    one [get_student] then reads under the same id. *)
Theorem update_then_get (E : engine) (db db' : database) (id : Z)
    (data : value) (r : response) :
  update_student E db id data = (db', r) ->
  status r = 200 ->
  exists v, resp_body r = MessageStudent "Student updated!" v /\
            get_student db' id = mkResponse (StudentBody v) 200.
Proof.
  intros Hu Hst. destruct (query_get db id) as [s|] eqn:Hget.
  - destruct (update_student_cases E db id data s Hget)
      as [[_ Hno]|(db1 & s' & Hb & _ & Heq)].
    + rewrite Hu in Hno. contradiction.
    + rewrite Hu in Heq. injection Heq as -> ->.
      exists (to_dict s'). split; [reflexivity|].
      destruct (update_body_Ret _ _ _ _ _ _ Hb)
        as (fn & ln & d & am & _ & _ & _ & _ & Hflush & ->).
      destruct (flush_row_Ret _ _ _ _ Hflush) as (Hid & _).
      destruct (query_get_Some _ _ _ Hget) as [Hs _].
      apply get_student_found.
      apply (query_get_replaced db id s s' Hget). congruence.
  - destruct (update_student_absent E db id data Hget) as [H | H];
      rewrite H in Hu; injection Hu as <- <-; discriminate.
Qed.

Lemma update_then_get_witness :
  update_student strict_engine [ada] 1 (VDict [("last_name", VStr "King")])
  = ([mkStudent 1 "Ada" "King" (mkDate 1815 12 10) 10.5%float],
     jsonify (MessageStudent "Student updated!"
                (to_dict (mkStudent 1 "Ada" "King" (mkDate 1815 12 10) 10.5%float))))
  /\ exists v,
       get_student [mkStudent 1 "Ada" "King" (mkDate 1815 12 10) 10.5%float] 1
       = mkResponse (StudentBody v) 200.
Proof.
  split; [reflexivity|].
  destruct (update_then_get strict_engine [ada] _ 1
              (VDict [("last_name", VStr "King")]) _ eq_refl eq_refl)
    as (v & _ & Hv).
  exists v. exact Hv.
Defined.

(** X6: [update_student] is idempotent: sent again on the table it
    returned, the same request returns that table and the same answer. *)
Theorem update_idempotent (E : engine) (db : database) (id : Z) (data : value) :
  update_student E (fst (update_student E db id data)) id data
  = update_student E db id data.
Proof.
  destruct (query_get db id) as [s|] eqn:Hget.
  - destruct (update_student_cases E db id data s Hget)
      as [[Hdb _]|(db1 & s' & Hb & Ht & Heq)].
    + now rewrite Hdb.
    + rewrite Heq. simpl fst.
      destruct (update_body_Ret _ _ _ _ _ _ Hb)
        as (fn & ln & d & am & Hfn & Hln & Hd & Ham & Hflush & ->).
      destruct (flush_row_Ret _ _ _ _ Hflush) as (Hid & _).
      destruct (query_get_Some _ _ _ Hget) as [Hs _].
      unfold update_student.
      rewrite (lookup_found _ _ _ (query_get_replaced db id s s' Hget
                                      ltac:(congruence))).
      rewrite Ht. simpl negb. cbv iota.
      unfold update_body, commit_update, bind.
      rewrite Hfn, Hln, Hd, Ham, (flush_row_again _ _ _ _ Hflush).
      now rewrite replace_row_idem.
  - destruct (update_student_absent E db id data Hget) as [H | H];
      rewrite H; simpl fst; exact H.
Qed.

(** X7: [update_student] neither adds nor removes a row: whatever the id
    and the payload, the table it returns carries the same ids in the same
    order. *)
Theorem update_keeps_rows (E : engine) (db : database) (id : Z) (data : value) :
  map student_id (fst (update_student E db id data)) = map student_id db.
Proof.
  destruct (query_get db id) as [s|] eqn:Hget.
  - destruct (update_student_cases E db id data s Hget)
      as [[-> _]|(db1 & s' & Hb & _ & ->)]; [reflexivity|].
    destruct (update_body_Ret _ _ _ _ _ _ Hb)
      as (fn & ln & d & am & _ & _ & _ & _ & _ & ->).
    simpl. apply replace_row_ids.
  - destruct (update_student_absent E db id data Hget) as [-> | ->]; reflexivity.
Qed.

(** ** What the [except] clauses answer *)

Lemma strptime_not_string (v : value) :
  is_string v = false -> strptime v = Raise TypeError.
Proof. destruct v; simpl; congruence. Qed.

(** X8: a dob that is supplied but is not a string (null, a number, a
    list) is answered 500 by the catch-all clause, not 400: by
    [create_student] once the four keys are there, by [update_student] on an
    existing student; the table is returned as it was. *)
Theorem dob_not_a_string (E : engine) (db : database) (data v : value) :
  supplies data "dob" v ->
  is_string v = false ->
  (invalid_input data = Ret false ->
   create_student E db data
   = (db, mkResponse (MessageExn "Error creating student: " TypeError) 500)) /\
  (forall id s, query_get db id = Some s ->
     update_student E db id data
     = (db, mkResponse (MessageExn "Error updating student: " TypeError) 500)).
Proof.
  intros Hs Hv. pose proof (strptime_not_string v Hv) as Hraise.
  destruct (supplies_dict _ _ _ Hs) as (d & -> & Hl). split.
  - intros Hin. unfold create_student. rewrite Hin.
    unfold create_body, bind. simpl. rewrite Hl. simpl. now rewrite Hraise.
  - intros id s Hget. unfold update_student.
    rewrite (lookup_found _ _ _ Hget), (lookup_truthy _ _ _ Hl). simpl negb. cbv iota.
    unfold update_body. rewrite !assign_dict.
    unfold assign_if_present, bind. simpl. unfold has_key. rewrite Hl. simpl.
    now rewrite Hraise.
Qed.

Lemma dob_not_a_string_witness :
  let data := VDict [ ("first_name", VStr "Ada"); ("last_name", VStr "Lovelace");
                      ("dob", VInt 18151210); ("amount_due", VFloat 10.5%float) ] in
  supplies data "dob" (VInt 18151210) /\
  is_string (VInt 18151210) = false /\
  create_student strict_engine [] data
  = ([], mkResponse (MessageExn "Error creating student: " TypeError) 500) /\
  update_student strict_engine [ada] 1 data
  = ([ada], mkResponse (MessageExn "Error updating student: " TypeError) 500).
Proof.
  intros data.
  destruct (dob_not_a_string strict_engine [] data (VInt 18151210) eq_refl eq_refl)
    as [Hc _].
  destruct (dob_not_a_string strict_engine [ada] data (VInt 18151210) eq_refl eq_refl)
    as [_ Hu].
  split; [reflexivity|]. split; [reflexivity|]. split.
  - apply Hc. reflexivity.
  - apply (Hu 1 ada). reflexivity.
Defined.

Lemma flush_text_null (E : engine) (old : string) (r : outcome string) :
  flush_text E old (Some VNone) = r -> r = Raise SQLAlchemyError.
Proof. simpl. congruence. Qed.

(** X9: null is never stored: when the body gives null to any of
    first_name, last_name, dob, amount_due, [create_student] does not answer
    201 and [update_student] does not answer 200, and both return the table
    as it was. *)
Theorem null_never_stored (E : engine) (db : database) (data : value)
    (k : string) :
  In k required_fields ->
  supplies data k VNone ->
  (fst (create_student E db data) = db /\
   status (snd (create_student E db data)) <> 201) /\
  (forall id, fst (update_student E db id data) = db /\
              status (snd (update_student E db id data)) <> 200).
Proof.
  intros Hk Hs. split.
  - destruct (create_student_cases E db data) as [H|(s & _ & Hb & _)]; [exact H|].
    exfalso.
    destruct (create_body_Ret _ _ _ _ _ Hb)
      as (v & fn & ln & am & Hv & Hd & Hfn & Hbfn & Hln & Hbln & Ham & Hbam & _).
    unfold required_fields in Hk. simpl in Hk.
    destruct Hk as [<-|[<-|[<-|[<-|[]]]]].
    + rewrite (supplies_functional _ _ _ _ Hfn Hs) in Hbfn. discriminate.
    + rewrite (supplies_functional _ _ _ _ Hln Hs) in Hbln. discriminate.
    + rewrite (supplies_functional _ _ _ _ Hv Hs) in Hd. discriminate.
    + rewrite (supplies_functional _ _ _ _ Ham Hs) in Hbam. discriminate.
  - intros id. destruct (query_get db id) as [s|] eqn:Hget.
    + destruct (update_student_cases E db id data s Hget)
        as [H|(db1 & s' & Hb & _ & _)]; [exact H|].
      exfalso.
      destruct (supplies_dict _ _ _ Hs) as (d & -> & Hl).
      destruct (update_body_Ret _ _ _ _ _ _ Hb)
        as (fn & ln & dd & am & Hfn & Hln & Hd & Ham & Hflush & _).
      rewrite assign_dict in Hfn, Hln, Ham.
      injection Hfn as <-. injection Hln as <-. injection Ham as <-.
      destruct (flush_row_Ret _ _ _ _ Hflush) as (_ & H1 & H2 & _ & H4).
      simpl in H1, H2, H4.
      unfold required_fields in Hk. simpl in Hk.
      destruct Hk as [<-|[<-|[<-|[<-|[]]]]].
      * rewrite Hl in H1. discriminate.
      * rewrite Hl in H2. discriminate.
      * destruct (assign_if_present_Ret _ _ _ _ Hd)
          as [[_ Hc]|(v & a & _ & _ & Hv & Hp)].
        -- simpl in Hc. unfold has_key in Hc. rewrite Hl in Hc. discriminate.
        -- rewrite (supplies_functional _ _ _ _ Hv Hs) in Hp. discriminate.
      * rewrite Hl in H4. discriminate.
    + destruct (update_student_absent E db id data Hget) as [-> | ->];
        simpl; split; [reflexivity | discriminate | reflexivity | discriminate].
Qed.

Lemma null_never_stored_witness :
  In "amount_due" required_fields /\
  supplies (VDict [("amount_due", VNone)]) "amount_due" VNone /\
  fst (update_student strict_engine [ada] 1 (VDict [("amount_due", VNone)])) = [ada] /\
  status (snd (update_student strict_engine [ada] 1 (VDict [("amount_due", VNone)])))
  <> 200.
Proof.
  assert (Hk : In "amount_due" required_fields) by (simpl; tauto).
  split; [exact Hk|]. split; [reflexivity|].
  exact (proj2 (null_never_stored strict_engine [ada]
                  (VDict [("amount_due", VNone)]) "amount_due" Hk eq_refl) 1).
Defined.

(** X10: a body that is a JSON number or boolean and is truthy makes the
    membership test raise: in [create_student] the test stands outside the
    [try] block and the exception leaves the view, in [update_student] it
    stands inside and is answered by the catch-all clause; in both the
    status is 500 and the table is returned as it was. *)
Theorem number_body (E : engine) (db : database) (data : value) :
  is_number data = true ->
  truthy data = true ->
  create_student E db data = (db, mkResponse (Unhandled TypeError) 500) /\
  (forall id s, query_get db id = Some s ->
     update_student E db id data
     = (db, mkResponse (MessageExn "Error updating student: " TypeError) 500)).
Proof.
  intros Hn Ht. split.
  - unfold create_student, invalid_input, por, not_in, bind. rewrite Ht.
    destruct data; try discriminate; reflexivity.
  - intros id s Hget. unfold update_student.
    rewrite (lookup_found _ _ _ Hget), Ht. simpl negb. cbv iota.
    destruct data; try discriminate; reflexivity.
Qed.

Lemma number_body_witness :
  is_number (VInt 5) = true /\ truthy (VInt 5) = true /\
  create_student strict_engine [ada] (VInt 5)
  = ([ada], mkResponse (Unhandled TypeError) 500).
Proof.
  split; [reflexivity|]. split; [reflexivity|].
  exact (proj1 (number_body strict_engine [ada] (VInt 5) eq_refl eq_refl)).
Defined.

(** ** Serialization *)

(** X11: [to_dict] loses nothing: two rows that hold calendar dates and
    serialize to the same dict are the same row. *)
Theorem to_dict_injective (s1 s2 : Student) :
  valid_date (dob s1) = true ->
  valid_date (dob s2) = true ->
  to_dict s1 = to_dict s2 -> s1 = s2.
Proof.
  intros H1 H2 Heq. unfold to_dict in Heq.
  assert (Hid : student_id s1 = student_id s2) by congruence.
  assert (Hfn : first_name s1 = first_name s2) by congruence.
  assert (Hln : last_name s1 = last_name s2) by congruence.
  assert (Hd : isoformat (dob s1) = isoformat (dob s2)) by congruence.
  assert (Ham : amount_due s1 = amount_due s2) by congruence.
  apply strptime_isoformat in H1. apply strptime_isoformat in H2.
  rewrite Hd in H1. rewrite H1 in H2. injection H2 as Hdob.
  now apply Student_eq.
Qed.

Lemma to_dict_injective_witness :
  valid_date (dob ada) = true /\
  (to_dict ada = to_dict ada -> ada = ada).
Proof.
  split; [reflexivity|].
  exact (to_dict_injective ada ada eq_refl eq_refl).
Defined.

Lemma to_dict_supplies (s : Student) : supplies_fields (to_dict s) (fields_of s).
Proof. repeat split. Qed.

(** X12: what the service serializes it accepts back: posting the dict of
    a row that holds what the columns can hold (a calendar date, an amount
    that is neither NaN nor the negative zero), on a table that has a next
    rowid, is answered 201 and appends a row with the same four fields
    under that rowid, the [student_id] key of the body being ignored. *)
Theorem create_from_to_dict (E : engine) (db : database) (s : Student) :
  row_ok s ->
  fits_int64 (next_id db) = true ->
  create_student E db (to_dict s)
  = ((db ++ [mkStudent (next_id db) (first_name s) (last_name s) (dob s)
               (amount_due s)])%list,
     mkResponse
       (MessageStudent "Student created!"
          (to_dict (mkStudent (next_id db) (first_name s) (last_name s) (dob s)
                      (amount_due s)))) 201).
Proof.
  intros (Hd & Hn & Hz) Hfit.
  pose proof (create_typed E db (to_dict s) (fields_of s) (dob s)
                (to_dict_supplies s) (strptime_isoformat _ Hd) Hn Hfit) as H.
  unfold created, fields_of in H. simpl in H.
  rewrite (stored_real_same _ Hz) in H. exact H.
Qed.

Lemma ada_ok : row_ok ada.
Proof. repeat split. Defined.

Lemma create_from_to_dict_witness :
  row_ok ada /\ fits_int64 (next_id [ada]) = true /\
  fst (create_student strict_engine [ada] (to_dict ada))
  = [ada; mkStudent 2 "Ada" "Lovelace" (mkDate 1815 12 10) 10.5%float].
Proof.
  split; [exact ada_ok|]. split; [reflexivity|].
  exact (f_equal fst (create_from_to_dict strict_engine [ada] ada ada_ok eq_refl)).
Defined.

(** X13: putting back the dict that [get_student] gave for a record changes
    nothing: on a table with unique ids, [update_student] with the
    serialization of the record stored under the id answers 200 with that
    same serialization and returns the table as it was. *)
Theorem update_with_own_dict (E : engine) (db : database) (id : Z)
    (s : Student) :
  primary_key db ->
  query_get db id = Some s ->
  row_ok s ->
  update_student E db id (to_dict s)
  = (db, mkResponse (MessageStudent "Student updated!" (to_dict s)) 200).
Proof.
  intros Hpk Hget (Hd & Hn & Hz).
  destruct (query_get_Some _ _ _ Hget) as [_ Hin].
  unfold update_student. rewrite (lookup_found _ _ _ Hget). unfold to_dict.
  cbn [truthy negb]. unfold update_body. rewrite !assign_dict.
  unfold assign_if_present, bind.
  cbn [contains getitem has_key lookup String.eqb Ascii.eqb Bool.eqb strptime].
  rewrite (strptime_isoformat _ Hd).
  unfold commit_update, flush_row, bind.
  cbn [p_first_name p_last_name p_dob p_amount_due flush_text flush_real
       flush_date bind_text].
  unfold bind_real, bind. rewrite Hn, (stored_real_same _ Hz).
  destruct s as [i fn ln d am Hi].
  cbn [student_id first_name last_name dob amount_due student_id_fits].
  now rewrite (replace_row_same db _ Hpk Hin).
Qed.

Lemma update_with_own_dict_witness :
  primary_key [ada] /\ query_get [ada] 1 = Some ada /\ row_ok ada /\
  update_student strict_engine [ada] 1 (to_dict ada)
  = ([ada], mkResponse (MessageStudent "Student updated!" (to_dict ada)) 200).
Proof.
  split; [exact primary_key_ada|]. split; [reflexivity|]. split; [exact ada_ok|].
  exact (update_with_own_dict strict_engine [ada] 1 ada primary_key_ada eq_refl ada_ok).
Defined.

(** X14: a record created and then deleted leaves the table as it was:
    when [create_student] answers 201, [delete_student] on the id of its
    answer returns the table the creation started from. *)
Theorem create_then_delete (E : engine) (db : database) (data : value) :
  status (snd (create_student E db data)) = 201 ->
  exists s,
    snd (create_student E db data)
    = mkResponse (MessageStudent "Student created!" (to_dict s)) 201 /\
    delete_student (fst (create_student E db data)) (student_id s)
    = (db, mkResponse (Message "Student deleted!") 200).
Proof.
  intros Hst.
  destruct (create_student_cases E db data) as [[_ Hno]|(s & _ & Hb & Heq)];
    [contradiction|].
  exists s. rewrite Heq. simpl. split; [reflexivity|].
  destruct (create_body_Ret _ _ _ _ _ Hb)
    as (v & fn & ln & am & _ & _ & _ & _ & _ & _ & _ & _ & Hid & _).
  pose proof (next_id_fresh db) as Hfresh. rewrite <- Hid in Hfresh.
  assert (Hnew : query_get (db ++ [s])%list (student_id s) = Some s).
  { rewrite query_get_app_new by now apply query_get_absent.
    now rewrite Z.eqb_refl. }
  unfold delete_student. rewrite (lookup_found _ _ _ Hnew). f_equal.
  unfold commit_delete. rewrite filter_app. simpl. rewrite Z.eqb_refl. simpl.
  rewrite app_nil_r. clear Hb Heq Hst Hid Hnew.
  induction db as [|r db IH]; simpl in *; [reflexivity|].
  destruct (student_id r =? student_id s) eqn:Hr.
  - apply Z.eqb_eq in Hr. exfalso. auto.
  - simpl. f_equal. apply IH. tauto.
Qed.

Lemma create_then_delete_witness :
  status (snd (create_student strict_engine [ada] (body_of grace_fields))) = 201 /\
  exists s,
    delete_student (fst (create_student strict_engine [ada] (body_of grace_fields)))
      (student_id s)
    = ([ada], mkResponse (Message "Student deleted!") 200).
Proof.
  split; [reflexivity|].
  destruct (create_then_delete strict_engine [ada] (body_of grace_fields) eq_refl)
    as (s & _ & Hs).
  exists s. exact Hs.
Defined.

(** ** The upload view: what is written *)

(** X17: uploads are not told apart by anything but the path: a second
    accepted upload under the same filename replaces the bytes of the first
    (the last writer wins). *)
Theorem upload_overwrites (fs : filesystem) (name b1 b2 : string) :
  name <> "" ->
  allowed_file name = true ->
  let fs1 := fst (upload_file fs (one_file name b1)) in
  let fs2 := fst (upload_file fs1 (one_file name b2)) in
  read_file fs1 (path_join "uploads" name) = Some b1 /\
  read_file fs2 (path_join "uploads" name) = Some b2.
Proof.
  intros Hne Hal fs1 fs2. subst fs1 fs2.
  unfold upload_file, one_file, file_truthy, save. simpl.
  apply String.eqb_neq in Hne. rewrite Hne, Hal. simpl.
  rewrite String.eqb_refl. auto.
Qed.

Lemma upload_overwrites_witness :
  "photo.png" <> "" /\ allowed_file "photo.png" = true /\
  read_file (fst (upload_file (fst (upload_file [] (one_file "photo.png" "old")))
                    (one_file "photo.png" "new")))
    "uploads/photo.png" = Some "new".
Proof.
  split; [discriminate|]. split; [reflexivity|].
  exact (proj2 (upload_overwrites [] "photo.png" "old" "new"
                  ltac:(discriminate) eq_refl)).
Defined.

(** ** The extension test *)

Lemma lower_char_dot (c : ascii) :
  Ascii.eqb (lower_char c) "." = Ascii.eqb c ".".
Proof. destruct c as [[] [] [] [] [] [] [] []]; reflexivity. Qed.

Lemma lower_char_idem (c : ascii) : lower_char (lower_char c) = lower_char c.
Proof. destruct c as [[] [] [] [] [] [] [] []]; reflexivity. Qed.

Lemma lower_idem (s : string) : lower (lower s) = lower s.
Proof.
  induction s as [|c s IH]; simpl; [reflexivity|].
  now rewrite lower_char_idem, IH.
Qed.

Lemma split_last_lower (s : string) :
  split_last "." (lower s)
  = match split_last "." s with
    | Some (h, t) => Some (lower h, lower t)
    | None => None
    end.
Proof.
  induction s as [|c s IH]; simpl; [reflexivity|].
  rewrite IH. destruct (split_last "." s) as [[h t]|]; [reflexivity|].
  rewrite lower_char_dot. destruct (Ascii.eqb c "."); reflexivity.
Qed.

(** [allowed_file] read off the split at the last dot. *)
Lemma allowed_file_split (name : string) :
  allowed_file name
  = match split_last "." name with
    | Some (_, ext) => in_set (lower ext) ALLOWED_EXTENSIONS
    | None => false
    end.
Proof.
  unfold allowed_file, rsplit1.
  destruct (split_last "." name) as [[h t]|] eqn:Hs; simpl nth_error.
  - assert (Hdot : is_infix "." name = true).
    { apply is_infix_dot. rewrite <- split_last_None, Hs. discriminate. }
    now rewrite Hdot.
  - apply andb_false_r.
Qed.

Lemma allowed_file_lower (name : string) :
  allowed_file (lower name) = allowed_file name.
Proof.
  rewrite !allowed_file_split, split_last_lower.
  destruct (split_last "." name) as [[h t]|]; [|reflexivity].
  now rewrite lower_idem.
Qed.

(** X18: the extension test does not see case: two filenames that differ
    only in the case of their letters are both allowed or both rejected. *)
Theorem allowed_file_ignores_case (n1 n2 : string) :
  lower n1 = lower n2 -> allowed_file n1 = allowed_file n2.
Proof.
  intros H. rewrite <- (allowed_file_lower n1), <- (allowed_file_lower n2).
  now rewrite H.
Qed.

Lemma allowed_file_ignores_case_witness :
  lower "Photo.PNG" = lower "photo.png" /\
  allowed_file "Photo.PNG" = allowed_file "photo.png".
Proof.
  split; [reflexivity|].
  exact (allowed_file_ignores_case "Photo.PNG" "photo.png" eq_refl).
Defined.

(** X19: the extension test sees only what follows the last dot: for an
    extension without a dot, a filename is allowed exactly when the lowered
    extension is one of the four, whatever precedes the dot (nothing, or a
    stem with dots of its own). *)
Theorem allowed_file_last_extension (stem ext : string) :
  dotless ext ->
  allowed_file (stem ++ "." ++ ext) = in_set (lower ext) ALLOWED_EXTENSIONS.
Proof.
  intros Hd. now rewrite allowed_file_split, (split_last_app stem ext Hd).
Qed.

Lemma dotless_exe : dotless "exe".
Proof.
  unfold dotless. simpl. intros [H|[H|[H|[]]]]; discriminate.
Defined.

Lemma allowed_file_last_extension_witness :
  dotless "exe" /\ allowed_file "photo.png.exe" = false.
Proof.
  split; [exact dotless_exe|].
  exact (allowed_file_last_extension "photo.png" "exe" dotless_exe).
Defined.

(** ** Dates: what [strptime] accepts *)

Lemma digit_char_is_digit (n : Z) : is_digit (digit_char n) = true.
Proof.
  unfold digit_char.
  assert (H : 0 <= n mod 10 < 10) by (apply Z.mod_pos_bound; lia).
  assert (Hc : n mod 10 = 0 \/ n mod 10 = 1 \/ n mod 10 = 2 \/ n mod 10 = 3 \/
               n mod 10 = 4 \/ n mod 10 = 5 \/ n mod 10 = 6 \/ n mod 10 = 7 \/
               n mod 10 = 8 \/ n mod 10 = 9) by lia.
  repeat (destruct Hc as [->|Hc]; [reflexivity|]). now rewrite Hc.
Qed.

Lemma isoformat_zero_padded (d : date) : zero_padded (isoformat d) = true.
Proof.
  unfold isoformat, pad4, pad2. cbn [append zero_padded].
  rewrite !digit_char_is_digit. reflexivity.
Qed.

(** X20: whatever string [strptime] accepts, the date it returns is a
    calendar date (year 1 to 9999, month 1 to 12, day 1 to 31 and no more
    than the month has), and [isoformat] prints it in the zero-padded form,
    which [strptime] reads back as the same date. *)
Theorem strptime_normalises (s : string) (d : date) :
  strptime_str s = Ret d ->
  valid_date d = true /\
  1 <= year d <= 9999 /\ 1 <= month d <= 12 /\
  1 <= day d <= days_in_month (year d) (month d) /\ day d <= 31 /\
  zero_padded (isoformat d) = true /\
  strptime_str (isoformat d) = Ret d.
Proof.
  intros H. pose proof (strptime_str_valid _ _ H) as Hv.
  pose proof Hv as Hb. unfold valid_date in Hb.
  repeat (apply andb_prop in Hb as [Hb ?]).
  repeat match goal with Hx : (_ <=? _) = true |- _ => apply Z.leb_le in Hx end.
  pose proof (days_in_month_le (year d) (month d)).
  repeat split; try assumption; try lia.
  - apply isoformat_zero_padded.
  - now apply strptime_isoformat.
Qed.

Lemma strptime_normalises_witness :
  strptime_str "1906-12-9" = Ret (mkDate 1906 12 9) /\
  strptime_str (isoformat (mkDate 1906 12 9)) = Ret (mkDate 1906 12 9).
Proof.
  split; [reflexivity|].
  destruct (strptime_normalises "1906-12-9" (mkDate 1906 12 9) eq_refl)
    as (_ & _ & _ & _ & _ & _ & H).
  exact H.
Defined.

Lemma alternation_Some {A : Type} (alts : list (string -> option (Z * string)))
    (k : Z -> string -> option A) (s : string) (r : A) :
  alternation alts k s = Some r ->
  exists alt v rest, In alt alts /\ alt s = Some (v, rest) /\ k v rest = Some r.
Proof.
  induction alts as [|alt alts IH]; simpl; [discriminate|].
  destruct (alt s) as [[v rest]|] eqn:Ha.
  - destruct (k v rest) as [r'|] eqn:Hk.
    + intros [= <-]. exists alt, v, rest. auto.
    + intros H. destruct (IH H) as (a & v' & rest' & Hin & H1 & H2).
      exists a, v', rest'. auto.
  - intros H. destruct (IH H) as (a & v' & rest' & Hin & H1 & H2).
    exists a, v', rest'. auto.
Qed.

Lemma two_chars_length (p q : ascii -> bool) (f : ascii -> ascii -> Z)
    (s rest : string) (v : Z) :
  two_chars p q f s = Some (v, rest) ->
  String.length s = (2 + String.length rest)%nat.
Proof.
  unfold two_chars. destruct s as [|a [|b t]]; try discriminate.
  destruct (p a && q b); [|discriminate]. intros [= _ <-]. reflexivity.
Qed.

Lemma one_char_length (p : ascii -> bool) (s rest : string) (v : Z) :
  one_char p s = Some (v, rest) ->
  String.length s = (1 + String.length rest)%nat.
Proof.
  unfold one_char. destruct s as [|a t]; try discriminate.
  destruct (p a); [|discriminate]. intros [= _ <-]. reflexivity.
Qed.

Lemma alts_m_length (alt : string -> option (Z * string)) (s rest : string)
    (v : Z) :
  In alt alts_m -> alt s = Some (v, rest) ->
  (1 + String.length rest <= String.length s <= 2 + String.length rest)%nat.
Proof.
  unfold alts_m. simpl. intros [<-|[<-|[<-|[]]]] H;
    first [apply two_chars_length in H | apply one_char_length in H]; lia.
Qed.

Lemma alts_d_length (alt : string -> option (Z * string)) (s rest : string)
    (v : Z) :
  In alt alts_d -> alt s = Some (v, rest) ->
  (1 + String.length rest <= String.length s <= 2 + String.length rest)%nat.
Proof.
  unfold alts_d. simpl. intros [<-|[<-|[<-|[<-|[<-|[]]]]]] H;
    first [apply two_chars_length in H | apply one_char_length in H]; lia.
Qed.

Lemma match_dash_length (s rest : string) :
  match_dash s = Some rest -> String.length s = (1 + String.length rest)%nat.
Proof.
  unfold match_dash. destruct s as [|c t]; [discriminate|].
  destruct (is_char "-" c); [|discriminate]. intros [= <-]. reflexivity.
Qed.

Lemma match_Y_length (s rest : string) (y : Z) :
  match_Y s = Some (y, rest) -> String.length s = (4 + String.length rest)%nat.
Proof.
  unfold match_Y. destruct s as [|a [|b [|c [|d t]]]]; try discriminate.
  destruct (is_digit a && is_digit b && is_digit c && is_digit d); [|discriminate].
  intros [= _ <-]. reflexivity.
Qed.

(** X21: [strptime] accepts no string shorter than 8 characters or longer
    than 10: a dob of any other length is answered as an invalid date. *)
Theorem strptime_length (s : string) (d : date) :
  strptime_str s = Ret d -> (8 <= String.length s <= 10)%nat.
Proof.
  unfold strptime_str, regex_match.
  destruct (match_Y s) as [[y s1]|] eqn:HY; [|discriminate].
  destruct (match_dash s1) as [s2|] eqn:HD; [|discriminate].
  destruct (match_md s2) as [[[m dd] rest]|] eqn:HM; [|discriminate].
  destruct rest as [|c rest]; [|discriminate]. intros _.
  apply match_Y_length in HY. apply match_dash_length in HD.
  unfold match_md in HM.
  apply alternation_Some in HM as (am & vm & s3 & Hin & Ham & Hk).
  pose proof (alts_m_length _ _ _ _ Hin Ham) as Lm.
  destruct (match_dash s3) as [s4|] eqn:HD2; [|discriminate].
  apply match_dash_length in HD2.
  apply alternation_Some in Hk as (ad & vd & s5 & Hin' & Had & Hk').
  pose proof (alts_d_length _ _ _ _ Hin' Had) as Ld.
  injection Hk' as _ _ ->. simpl in Ld. lia.
Qed.

Lemma strptime_length_witness :
  strptime_str "1906-1-9" = Ret (mkDate 1906 1 9) /\
  (8 <= String.length "1906-1-9" <= 10)%nat.
Proof.
  split; [reflexivity|].
  exact (strptime_length "1906-1-9" (mkDate 1906 1 9) eq_refl).
Defined.

(** ** [__repr__] *)

Lemma quoteless_cons (c : ascii) (s : string) :
  quoteless (String c s) <-> c <> "'"%char /\ quoteless s.
Proof.
  unfold quoteless. simpl. split.
  - intros H. split; [intros ->; apply H; auto | intros Hin; apply H; auto].
  - intros [Hc Hs] [Heq|Hin]; [congruence | contradiction].
Qed.

(** Two strings without a quote that are followed by a quote and agree as
    a whole agree part by part. *)
Lemma split_at_quote (a1 a2 b1 b2 : string) :
  quoteless a1 -> quoteless a2 ->
  a1 ++ String "'" b1 = a2 ++ String "'" b2 -> a1 = a2 /\ b1 = b2.
Proof.
  revert a2. induction a1 as [|c a1 IH]; intros a2 H1 H2 Heq.
  - destruct a2 as [|c2 a2]; simpl in Heq.
    + injection Heq as ->. auto.
    + injection Heq as <- _. apply quoteless_cons in H2 as [Hc _]. contradiction.
  - apply quoteless_cons in H1 as [Hc H1].
    destruct a2 as [|c2 a2]; simpl in Heq.
    + injection Heq as -> _. contradiction.
    + injection Heq as <- Heq. apply quoteless_cons in H2 as [_ H2].
      destruct (IH a2 H1 H2 Heq) as [-> ->]. auto.
Qed.

Lemma string_length_app (a b : string) :
  String.length (a ++ b) = (String.length a + String.length b)%nat.
Proof. induction a as [|c a IH]; simpl; [reflexivity | now rewrite IH]. Qed.

Lemma app_inv_tail_string (a b t : string) : a ++ t = b ++ t -> a = b.
Proof.
  revert b. induction a as [|c a IH]; intros b H.
  - destruct b as [|c2 b]; [reflexivity|].
    apply (f_equal String.length) in H. simpl in H. rewrite string_length_app in H. lia.
  - destruct b as [|c2 b].
    + apply (f_equal String.length) in H. simpl in H. rewrite string_length_app in H. lia.
    + simpl in H. injection H as <- H. now rewrite (IH b H).
Qed.

Lemma app_inv_head_string (p a b : string) : p ++ a = p ++ b -> a = b.
Proof.
  induction p as [|c p IH]; simpl; [auto|].
  intros H. injection H as H. auto.
Qed.

(** X22: [__repr__] shows the two names and nothing else, and tells them
    apart as long as the first names hold no single quote: two rows with
    such first names have the same representation exactly when they have
    the same first_name and the same last_name. *)
Theorem repr_names (s1 s2 : Student) :
  quoteless (first_name s1) ->
  quoteless (first_name s2) ->
  (__repr__ s1 = __repr__ s2 <->
   first_name s1 = first_name s2 /\ last_name s1 = last_name s2).
Proof.
  intros Q1 Q2. split.
  - intros H. unfold __repr__ in H.
    apply app_inv_head_string in H.
    change (first_name s1 ++ String "'" (", last_name='" ++ last_name s1 ++ "')")
            = first_name s2 ++ String "'" (", last_name='" ++ last_name s2 ++ "')"))
      in H.
    destruct (split_at_quote _ _ _ _ Q1 Q2 H) as [Hfn Hrest].
    split; [exact Hfn|].
    apply app_inv_head_string in Hrest.
    exact (app_inv_tail_string _ _ _ Hrest).
  - intros [Hfn Hln]. unfold __repr__. now rewrite Hfn, Hln.
Qed.

Lemma quoteless_Ada : quoteless "Ada".
Proof.
  unfold quoteless. simpl. intros [H|[H|[H|[]]]]; discriminate.
Defined.

Lemma repr_names_witness :
  quoteless (first_name ada) /\
  __repr__ ada = "Student(first_name='Ada', last_name='Lovelace')" /\
  __repr__ ada
  = __repr__ (mkStudent 7 "Ada" "Lovelace" (mkDate 1990 1 1) 0%float).
Proof.
  split; [exact quoteless_Ada|]. split; [reflexivity|].
  apply (repr_names ada (mkStudent 7 "Ada" "Lovelace" (mkDate 1990 1 1) 0%float)
           quoteless_Ada quoteless_Ada).
  split; reflexivity.
Defined.

(** ** Requests that fail, requests in a row *)

(** X23: a request that is not answered 200 or 201 leaves the table as it
    was: no view writes anything on a path that ends in an error answer. *)
Theorem errors_change_nothing (E : engine) (db : database) (r : request) :
  succeeded (snd (step E db r)) = false -> fst (step E db r) = db.
Proof.
  unfold succeeded. destruct r as [data| |id|id data|id]; simpl.
  - destruct (create_student_cases E db data) as [[Hdb _]|(s & _ & _ & Heq)];
      [auto|]. rewrite Heq. discriminate.
  - reflexivity.
  - reflexivity.
  - destruct (query_get db id) as [s|] eqn:Hget.
    + destruct (update_student_cases E db id data s Hget)
        as [[Hdb _]|(db1 & s' & _ & _ & Heq)]; [auto|].
      rewrite Heq. discriminate.
    + destruct (update_student_absent E db id data Hget) as [-> | ->]; reflexivity.
  - destruct (query_get db id) as [s|] eqn:Hget.
    + unfold delete_student. rewrite (lookup_found _ _ _ Hget). discriminate.
    + destruct (delete_student_absent db id Hget) as [-> | ->]; reflexivity.
Qed.

Lemma errors_change_nothing_witness :
  succeeded (snd (step strict_engine [ada] (Update 1 (VDict [("dob", VStr "1815")]))))
  = false /\
  fst (step strict_engine [ada] (Update 1 (VDict [("dob", VStr "1815")]))) = [ada].
Proof.
  split; [reflexivity|].
  exact (errors_change_nothing strict_engine [ada]
           (Update 1 (VDict [("dob", VStr "1815")])) eq_refl).
Defined.


(** ** Worked requests at the edges of the store *)

Example get_unbindable_id :
  get_student [ada] (2 ^ 63) = mkResponse (Unhandled OverflowError) 500.
Proof. reflexivity. Qed.

Example get_largest_id : get_student [ada] (2 ^ 63 - 1) = NotFound.
Proof. reflexivity. Qed.

Example create_negative_zero :
  create_student strict_engine []
    (VDict [ ("first_name", VStr "Ada"); ("last_name", VStr "Lovelace");
             ("dob", VStr "1815-12-10"); ("amount_due", VFloat neg_zero) ])
  = ([mkStudent 1 "Ada" "Lovelace" (mkDate 1815 12 10) 0%float],
     mkResponse
       (MessageStudent "Student created!"
          (to_dict (mkStudent 1 "Ada" "Lovelace" (mkDate 1815 12 10) 0%float)))
       201).
Proof. reflexivity. Qed.

Example update_negative_zero :
  fst (update_student strict_engine [ada] 1 (VDict [("amount_due", VFloat neg_zero)]))
  = [mkStudent 1 "Ada" "Lovelace" (mkDate 1815 12 10) 0%float].
Proof. reflexivity. Qed.
